(** * convert_to_pdf.py: batch conversion of Markdown documentation to PDF

    A shallow embedding of [src/convert_to_pdf.py] and the properties of its
    two functions, [markdown_to_pdf] and [main].

    The script is a sequence of effects on the outside world: it prints,
    it looks files up, it launches [pandoc], it imports and calls WeasyPrint
    and it removes a file.  The embedding threads the file system through a
    small monad that also carries Python's exceptions and records every
    effect, in order, in a trace.  What the outside world answers is not
    code of the script.  What [pandoc] and WeasyPrint do is a field of an
    [environment] record; whether standard output takes a line and whether
    the operating system answers a query about a path is a field of a
    [platform] record.  The script is embedded once, in module [IO], over
    any platform and any environment.  The names without a module
    ([markdown_to_pdf], [convert_all], [main_on], [main]) are the script on
    the [reliable] platform, where no [print] and no query raises.

    Modelling conventions:
    - a path is the string handed to the operating system; the file system
      is a finite map from paths to file sizes in bytes, so two spellings of
      one file are two keys, and directories are not represented;
    - [os.remove] raises exactly when the file is absent;
    - during a run nothing but the script and its two collaborators
      changes the directory;
    - only exceptions derived from [Exception] are represented; an
      interruption of the process (KeyboardInterrupt, SystemExit) is not;
    - a size is a natural number of bytes, far below [2^1024], where its
      conversion to a double would overflow. *)

From Stdlib Require Import ZArith NArith List Ascii String DecimalString.
From stdpp Require Import gmap strings list fin_maps.
Import ListNotations.

(** ** Python strings *)

Module PyStr.

(** [str(n)] for a non-negative integer. *)
Definition of_nat (n : nat) : string := NilZero.string_of_uint (Nat.to_uint n).
Definition of_N (n : N) : string := NilZero.string_of_uint (N.to_uint n).

(** [c * n] for a one-character string [c]. *)
Fixpoint repeat (c : ascii) (n : nat) : string :=
  match n with
  | O => EmptyString
  | S k => String c (repeat c k)
  end.

(** [new.join(s)] bracketed by [new]: what [s.replace("", new)] returns. *)
Fixpoint interleave (new s : string) : string :=
  match s with
  | EmptyString => new
  | String c s' => new +:+ String c (interleave new s')
  end.

(** The scan of [str.replace] for a non-empty [old]: left to right, a match
    at the current position emits [new] and jumps over [old]; [skip] is the
    number of characters of a matched [old] still to jump over. *)
Fixpoint replace_scan (old new : string) (skip : nat) (s : string) : string :=
  match s with
  | EmptyString => EmptyString
  | String c s' =>
      match skip with
      | S k => replace_scan old new k s'
      | O =>
          if String.prefix old s
          then new +:+ replace_scan old new (String.length old - 1) s'
          else String c (replace_scan old new 0 s')
      end
  end.

(** [s.replace(old, new)]: every non-overlapping occurrence, leftmost first. *)
Definition replace (s old new : string) : string :=
  match old with
  | EmptyString => interleave new s
  | String _ _ => replace_scan old new 0 s
  end.

(** [old] occurs in [s] as a substring. *)
Definition occurs (old s : string) : Prop :=
  exists a b, s = a +:+ old +:+ b.

(** The same as a test: [old in s]. *)
Fixpoint occursb (old s : string) : bool :=
  String.prefix old s
  || match s with
     | EmptyString => false
     | String _ s' => occursb old s'
     end.

(** The nearest integer to [n / d], ties to the even one. *)
Definition round_half_even (n d : N) : N :=
  let q := (n / d)%N in
  let r := (n mod d)%N in
  match (2 * r ?= d)%N with
  | Lt => q
  | Gt => (q + 1)%N
  | Eq => if N.even q then q else (q + 1)%N
  end.

(** [f"{x:.2f}"] for [x = h / 100], [h] a count of hundredths. *)
Definition fixed2 (h : N) : string :=
  of_N (h / 100) +:+ "." +:+ of_N ((h mod 100) / 10) +:+ of_N (h mod 10).

(** [float(n)]: the double nearest to the integer [n], ties to the even
    mantissa.  Integers below [2^53] are doubles; above, a double has 53
    significant bits, so the doubles around [n] are the multiples of
    [2 ^ (log2 n - 52)]. *)
Definition to_double (n : N) : N :=
  if (n <? 2 ^ 53)%N then n
  else
    let u := (2 ^ (N.log2 n - 52))%N in
    (round_half_even n u * u)%N.

End PyStr.

(** ** The outside world *)

(** The working directory: which paths exist, and the size of each file. *)
Abbreviation fs := (gmap string N).

(** Exceptions.  The script tells [ImportError] from the rest; an exception
    carries the text that [str(e)] returns.  The three classes derive from
    [Exception], so [except Exception] catches each of them; what does not
    derive from it (KeyboardInterrupt, SystemExit) is not an [exn], and a
    run that is interrupted is not a run of this model. *)
Inductive exn_class := ImportError | OSError | OtherException.

Record exn := Exn { exn_cls : exn_class; exn_str : string }.

Definition is_ImportError (e : exn) : bool :=
  match exn_cls e with
  | ImportError => true
  | _ => false
  end.

(** What [subprocess.run(..., capture_output=True, text=True)] returns. *)
Record CompletedProcess := {
  returncode : Z;
  stdout : string;
  stderr : string
}.

(** The effects the script performs, as they appear in the trace.  A call
    that raises leaves its own event: [EPrintError] for a [print] whose
    line was not written, [EStatError] for a query the system refused. *)
Inductive event :=
| EPrint (line : string)
| EPrintError (line : string)
| EChdir (dir : string)
| EExists (p : string) (found : bool)
| EStat (p : string)
| EStatError (p : string)
| ERun (args : list string)
| EImport
| EWritePdf (html pdf : string)
| ERemove (p : string).

(** The collaborators of the script.  [subprocess_run] either fails to
    launch the program (an exception) or returns the completed process; it
    and [write_pdf] may change the file system in any way. *)
Record environment := {
  os_chdir : string -> option exn;
  subprocess_run : list string -> fs -> (exn + CompletedProcess) * fs;
  import_HTML : fs -> option exn;
  write_pdf : string -> string -> fs -> option exn * fs
}.

(** The platform under the script.  [stdout_write] is what writing a line
    to standard output raises, if anything: the text may have a character
    that the encoding of the stream lacks, or the stream may be closed.
    [stat_error] is what a query about a path ([Path.exists], [Path.stat])
    raises, if anything, before the file system is looked at. *)
Record platform := {
  stdout_write : string -> fs -> option exn;
  stat_error : string -> fs -> option exn
}.

(** The platform on which nothing of this raises. *)
Definition reliable : platform := {|
  stdout_write := fun _ _ => None;
  stat_error := fun _ _ => None
|}.

(** ** The monad of the script: state, exceptions and a trace *)

Inductive res (A : Type) :=
| Val (a : A)
| Raise (e : exn).
Arguments Val {A} a.
Arguments Raise {A} e.

(** A run: the result, the file system it leaves and the effects performed. *)
Record run (A : Type) := Run {
  result : res A;
  files : fs;
  trace : list event
}.
Arguments Run {A} result files trace.
Arguments result {A} r.
Arguments files {A} r.
Arguments trace {A} r.

Definition M (A : Type) : Type := fs -> run A.

Definition ret {A} (a : A) : M A := fun s => Run (Val a) s [].

Definition raise {A} (e : exn) : M A := fun s => Run (Raise e) s [].

Definition bind {A B} (m : M A) (k : A -> M B) : M B :=
  fun s =>
    let r := m s in
    match result r with
    | Val a =>
        let r' := k a (files r) in
        Run (result r') (files r') (trace r ++ trace r')
    | Raise e => Run (Raise e) (files r) (trace r)
    end.

(** [try: m  except ...: h e]. *)
Definition try_except {A} (m : M A) (h : exn -> M A) : M A :=
  fun s =>
    let r := m s in
    match result r with
    | Val a => r
    | Raise e =>
        let r' := h e (files r) in
        Run (result r') (files r') (trace r ++ trace r')
    end.

Notation "'do' x <- c ; k" := (bind c (fun x => k))
  (at level 10, x name, c at level 100, k at level 200).
Notation "c ;; k" := (bind c (fun _ => k))
  (at level 100, k at level 200, right associativity).

(** The text of the [FileNotFoundError] of a missing [p]. *)
Definition no_such_file (p : string) : exn :=
  Exn OSError ("[Errno 2] No such file or directory: '" +:+ p +:+ "'").

(** [os.remove(p)] *)
Definition os_remove (p : string) : M unit :=
  fun s =>
    match s !! p with
    | Some _ => Run (Val tt) (delete p s) [ERemove p]
    | None => Run (Raise (no_such_file p)) s [ERemove p]
    end.

(** ** The parts of the script that compute *)

Definition dquote : string := String "034"%char EmptyString.

Definition html_file_of (md_file : string) : string :=
  PyStr.replace md_file ".md" ".html".

Definition cmd_html (md_file html_file : string) : list string :=
  [ "pandoc";
    "-f"; "markdown";
    "-t"; "html";
    md_file;
    "-o"; html_file;
    "--css=style.css";
    "--metadata"; "title=" +:+ dquote +:+ "IOC_Config Documentation" +:+ dquote;
    "--metadata"; "author=" +:+ dquote +:+ "Michele Bigi" +:+ dquote;
    "--self-contained" ].

Definition job : Type := string * string.

Definition rule : string := PyStr.repeat "=" 60.

Definition newline : string := String "010"%char EmptyString.

Definition summary_line (success_count fail_count : nat) : string :=
  "Summary: " +:+ PyStr.of_nat success_count +:+ " successful, "
    +:+ PyStr.of_nat fail_count +:+ " failed".

(** [f"{size / (1024 * 1024):.2f}"].  The division of two integers gives
    the double nearest to the quotient; the divisor is a power of two, so
    that double is [float(size)] over [2^20].  The format then rounds the
    exact value of the double to two decimals, ties to even. *)
Definition size_mb (size : N) : string :=
  PyStr.fixed2
    (PyStr.round_half_even (PyStr.to_double size * 100) (1024 * 1024)).

Definition found_line (pdf_file : string) (size : N) : string :=
  "  ✓ " +:+ pdf_file +:+ " (" +:+ size_mb size +:+ " MB)".

Definition not_found_line (pdf_file : string) : string :=
  "  ✗ " +:+ pdf_file +:+ " (NOT FOUND)".

Definition working_directory : string :=
  "/Users/michelebigi/VisualStudioCode/GitHub/IOC_Config".

Definition documents : list job :=
  [ ("REFERENCE_MANUAL.md", "REFERENCE_MANUAL.pdf");
    ("IMPLEMENTATION_GUIDE.md", "IMPLEMENTATION_GUIDE.pdf");
    ("ARCHITECTURE.md", "ARCHITECTURE.pdf") ].

(** ** The script *)

Module IO.

Section Script.

Variable amb : platform.
Variable env : environment.

(** [print(line)] *)
Definition print (line : string) : M unit :=
  fun s =>
    match stdout_write amb line s with
    | None => Run (Val tt) s [EPrint line]
    | Some e => Run (Raise e) s [EPrintError line]
    end.

(** [Path(p).exists()] *)
Definition path_exists (p : string) : M bool :=
  fun s =>
    match stat_error amb p s with
    | None =>
        let b := bool_decide (is_Some (s !! p)) in
        Run (Val b) s [EExists p b]
    | Some e => Run (Raise e) s [EStatError p]
    end.

(** [Path(p).stat().st_size] *)
Definition stat_size (p : string) : M N :=
  fun s =>
    match stat_error amb p s with
    | None =>
        match s !! p with
        | Some n => Run (Val n) s [EStat p]
        | None => Run (Raise (no_such_file p)) s [EStat p]
        end
    | Some e => Run (Raise e) s [EStatError p]
    end.

(** [os.chdir(dir)] *)
Definition chdir (dir : string) : M unit :=
  fun s =>
    match os_chdir env dir with
    | None => Run (Val tt) s [EChdir dir]
    | Some e => Run (Raise e) s [EChdir dir]
    end.

(** [subprocess.run(args, capture_output=True, text=True)] *)
Definition subprocess_run_ (args : list string) : M CompletedProcess :=
  fun s =>
    match subprocess_run env args s with
    | (inr cp, s') => Run (Val cp) s' [ERun args]
    | (inl e, s') => Run (Raise e) s' [ERun args]
    end.

(** [from weasyprint import HTML] *)
Definition import_weasyprint : M unit :=
  fun s =>
    match import_HTML env s with
    | None => Run (Val tt) s [EImport]
    | Some e => Run (Raise e) s [EImport]
    end.

(** [HTML(html).write_pdf(pdf)] *)
Definition HTML_write_pdf (html pdf : string) : M unit :=
  fun s =>
    match write_pdf env html pdf s with
    | (None, s') => Run (Val tt) s' [EWritePdf html pdf]
    | (Some e, s') => Run (Raise e) s' [EWritePdf html pdf]
    end.

(** *** [markdown_to_pdf] *)

(** The body of the [try] block: step 2 and the clean-up. *)
Definition render_and_clean (html_file pdf_file : string) : M bool :=
  import_weasyprint ;;
  print "  Step 2: Converting HTML to PDF..." ;;
  HTML_write_pdf html_file pdf_file ;;
  print ("  ✓ PDF generated: " +:+ pdf_file) ;;
  os_remove html_file ;;
  print "  ✓ Cleaned up temporary HTML file" ;;
  ret true.

(** The two [except] clauses, in their order. *)
Definition render_handler (e : exn) : M bool :=
  if is_ImportError e then
    print "Error: WeasyPrint not installed. Run: pip install weasyprint" ;;
    ret false
  else
    print ("Error converting to PDF: " +:+ exn_str e) ;;
    ret false.

(** The [try] statement as a whole. *)
Definition try_block (html_file pdf_file : string) : M bool :=
  try_except (render_and_clean html_file pdf_file) render_handler.

Definition markdown_to_pdf (md_file pdf_file : string) : M bool :=
  print ("Converting " +:+ md_file +:+ " to PDF...") ;;
  let html_file := html_file_of md_file in
  print "  Step 1: Generating HTML from Markdown..." ;;
  do result <- subprocess_run_ (cmd_html md_file html_file) ;
  if negb (returncode result =? 0)%Z then
    print ("Error converting to HTML: " +:+ stderr result) ;;
    ret false
  else
    print ("  ✓ HTML generated: " +:+ html_file) ;;
    try_block html_file pdf_file.

(** *** [main] *)

(** The [for] loop over the documents, with its two counters. *)
Fixpoint convert_all (documents : list job) (success_count fail_count : nat)
  : M (nat * nat) :=
  match documents with
  | [] => ret (success_count, fail_count)
  | (md_file, pdf_file) :: rest =>
      do found <- path_exists md_file ;
      if found then
        do ok <- markdown_to_pdf md_file pdf_file ;
        if ok then
          print "" ;;
          convert_all rest (success_count + 1) fail_count
        else
          print "" ;;
          convert_all rest success_count (fail_count + 1)
      else
        print ("⚠ File not found: " +:+ md_file) ;;
        print "" ;;
        convert_all rest success_count (fail_count + 1)
  end.

(** The second [for] loop: the listing of the generated files. *)
Fixpoint list_pdfs (documents : list job) : M unit :=
  match documents with
  | [] => ret tt
  | (md_file, pdf_file) :: rest =>
      do found <- path_exists pdf_file ;
      if found then
        do size <- stat_size pdf_file ;
        print (found_line pdf_file size) ;;
        list_pdfs rest
      else
        print (not_found_line pdf_file) ;;
        list_pdfs rest
  end.

(** [main], with the list of documents as a parameter. *)
Definition main_on (documents : list job) : M unit :=
  chdir working_directory ;;
  print rule ;;
  print "IOC_Config Documentation - PDF Generation" ;;
  print rule ;;
  print "" ;;
  do counts <- convert_all documents 0 0 ;
  print rule ;;
  print (summary_line (fst counts) (snd counts)) ;;
  print rule ;;
  print (newline +:+ "Generated PDF files:") ;;
  list_pdfs documents.

Definition main : M unit := main_on documents.

End Script.

End IO.

(** The script on the reliable platform. *)
Abbreviation print := (IO.print reliable).
Abbreviation try_block := (IO.try_block reliable).
Abbreviation markdown_to_pdf := (IO.markdown_to_pdf reliable).
Abbreviation convert_all := (IO.convert_all reliable).
Abbreviation list_pdfs := (IO.list_pdfs reliable).
Abbreviation main_on := (IO.main_on reliable).
Abbreviation main := (IO.main reliable).


(** What the run wrote on standard output: the text of each [print] that
    returned, in order.  One entry per call, whatever line breaks the text
    has. *)
Fixpoint printed (t : list event) : list string :=
  match t with
  | [] => []
  | EPrint line :: t' => line :: printed t'
  | _ :: t' => printed t'
  end.

(** ** Concrete environments *)

Module Envs.

(** A [pandoc] that converts an existing source (argument 5) into the file
    named after [-o] (argument 7) and exits 0, and exits 1 with a
    diagnostic on a missing source. *)
Definition pandoc (args : list string) (s : fs) : (exn + CompletedProcess) * fs :=
  let src := nth 5 args EmptyString in
  let out := nth 7 args EmptyString in
  match s !! src with
  | Some n => (inr {| returncode := 0; stdout := ""; stderr := "" |},
               <[out := (2 * n + 512)%N]> s)
  | None => (inr {| returncode := 1; stdout := "";
                    stderr := "pandoc: " +:+ src +:+ ": does not exist" |}, s)
  end.

(** A renderer that writes the PDF of an existing HTML file and raises on
    a missing one. *)
Definition render (html pdf : string) (s : fs) : option exn * fs :=
  match s !! html with
  | Some n => (None, <[pdf := (n + 4096)%N]> s)
  | None => (Some (no_such_file html), s)
  end.

(** Everything installed and working. *)
Definition ideal : environment := {|
  os_chdir := fun _ => None;
  subprocess_run := pandoc;
  import_HTML := fun _ => None;
  write_pdf := render
|}.


(** [pandoc] is not installed: the launch itself raises. *)
Definition no_pandoc : environment := {|
  os_chdir := fun _ => None;
  subprocess_run := fun _ s => (inl (no_such_file "pandoc"), s);
  import_HTML := fun _ => None;
  write_pdf := render
|}.





(** A working directory that holds the three documents. *)
Definition all_sources : fs :=
  <["REFERENCE_MANUAL.md" := 40000%N]>
    (<["IMPLEMENTATION_GUIDE.md" := 25000%N]>
       (<["ARCHITECTURE.md" := 12000%N]> ∅)).

End Envs.

(** More environments and a platform, for the examples. *)

Module Worlds.


Fixpoint is_ascii (line : string) : bool :=
  match line with
  | EmptyString => true
  | String c rest => (nat_of_ascii c <? 128) && is_ascii rest
  end.

(** A standard output that takes ASCII text only. *)
Definition ascii_stdout : platform := {|
  stdout_write := fun line _ =>
    if is_ascii line then None
    else Some (Exn OtherException
                 "'ascii' codec can't encode character: ordinal not in range(128)");
  stat_error := fun _ _ => None
|}.

End Worlds.

(** ** Vocabulary of the statements *)

(** The line printed by the handler that catches [e]. *)
Definition failure_line (e : exn) : string :=
  if is_ImportError e
  then "Error: WeasyPrint not installed. Run: pip install weasyprint"
  else "Error converting to PDF: " +:+ exn_str e.

(** The first effects of every conversion, up to the launch of [pandoc]. *)
Definition step1_trace (md : string) : list event :=
  [EPrint ("Converting " +:+ md +:+ " to PDF...");
   EPrint "  Step 1: Generating HTML from Markdown...";
   ERun (cmd_html md (html_file_of md))].


(** The effects of a conversion whose [pandoc] run exits 0, up to the [try]
    block. *)
Definition html_done_trace (md : string) : list event :=
  step1_trace md ++ [EPrint ("  ✓ HTML generated: " +:+ html_file_of md)].

(** The collaborators write nothing but the file they are asked for:
    [pandoc] the one after [-o], the renderer the PDF. *)
Definition writes_only_outputs (env : environment) : Prop :=
  (forall md html (s : fs) (p : string),
      p <> html -> snd (subprocess_run env (cmd_html md html) s) !! p = s !! p)
  /\ (forall html pdf (s : fs) (p : string),
      p <> pdf -> snd (write_pdf env html pdf s) !! p = s !! p).

(** No job of [docs] has [p] as its HTML or its PDF path. *)
Definition untouched_by (p : string) (docs : list job) : Prop :=
  Forall (fun j : job => html_file_of (fst j) <> p /\ snd j <> p) docs.

(** What [main] does before the loop, when the directory can be entered. *)
Definition header : list event :=
  [EChdir working_directory; EPrint rule;
   EPrint "IOC_Config Documentation - PDF Generation"; EPrint rule; EPrint ""].

(** The summary printed after the loop. *)
Definition footer (sc fc : nat) : list event :=
  [EPrint rule; EPrint (summary_line sc fc); EPrint rule;
   EPrint (newline +:+ "Generated PDF files:")].

(** The line of the final listing for [pdf], on the file system [s]. *)
Definition listing_line (s : fs) (pdf : string) : string :=
  match s !! pdf with
  | Some size => found_line pdf size
  | None => not_found_line pdf
  end.

(** The effects of the final listing. *)
Fixpoint listing (docs : list job) (s : fs) : list event :=
  match docs with
  | [] => []
  | (_, pdf) :: rest =>
      match s !! pdf with
      | Some size => [EExists pdf true; EStat pdf; EPrint (found_line pdf size)]
      | None => [EExists pdf false; EPrint (not_found_line pdf)]
      end ++ listing rest s
  end.


(** The effects of a job whose source is missing. *)
Definition missing_chunk (md : string) : list event :=
  [EExists md false; EPrint ("⚠ File not found: " +:+ md); EPrint ""].

(** On a calm platform no [print] and no query about a path raises. *)
Definition calm (amb : platform) : Prop :=
  (forall (line : string) (s : fs), stdout_write amb line s = None)
  /\ (forall (p : string) (s : fs), stat_error amb p s = None).

(** The body of the loop of [main] for one job.  The answer tells which of
    the two counters the loop adds one to. *)
Definition job_run (amb : platform) (env : environment) (j : job) : M bool :=
  do found <- IO.path_exists amb (fst j) ;
  if found then
    do ok <- IO.markdown_to_pdf amb env (fst j) (snd j) ;
    IO.print amb "" ;;
    ret ok
  else
    IO.print amb ("⚠ File not found: " +:+ fst j) ;;
    IO.print amb "" ;;
    ret false.

(** The jobs of [docs] run one after another from [s]: each job with the
    run of its body, which starts on the file system that the run before
    it left; the list ends with the first run that raises. *)
Fixpoint job_runs (amb : platform) (env : environment) (docs : list job) (s : fs)
  : list (job * run bool) :=
  match docs with
  | [] => []
  | j :: rest =>
      let r := job_run amb env j s in
      (j, r) :: match result r with
                | Val _ => job_runs amb env rest (files r)
                | Raise _ => []
                end
  end.

(** [q] is the integer nearest to [n / d], and the even one of the two
    nearest when [n / d] lies halfway between them. *)
Definition nearest_even (n d q : N) : Prop :=
  (2 * q * d <= 2 * n + d)%N
  /\ (2 * n <= 2 * q * d + d)%N
  /\ ((2 * n = 2 * q * d + d)%N \/ (2 * n + d = 2 * q * d)%N -> N.even q = true).

(** [u] is the distance between the doubles around the integer [n]: 1 up
    to [2^53], and above it the power of two that leaves 53 significant
    bits. *)
Definition double_unit (n u : N) : Prop :=
  ((n < 2 ^ 53)%N /\ u = 1%N)
  \/ (exists k : N, u = (2 ^ k)%N /\ (2 ^ 52 * u <= n)%N /\ (n < 2 ^ 53 * u)%N).

(** [text] is [size] bytes in units of 1024 * 1024 bytes with two decimals,
    computed in double precision: the size goes to the nearest double
    [m * u], the quotient to the nearest hundredth [h], ties to even both
    times, and [h] is written with two digits after the point. *)
Definition shows_mb (size : N) (text : string) : Prop :=
  exists u m h : N,
    double_unit size u
    /\ nearest_even size u m
    /\ nearest_even (m * u * 100) (1024 * 1024) h
    /\ text = PyStr.of_N (h / 100) +:+ "."
               +:+ PyStr.of_N (h mod 100 / 10) +:+ PyStr.of_N (h mod 10).

(** The run of a job returned an answer. *)
Definition returned (jr : job * run bool) : Prop :=
  exists ok : bool, result (snd jr) = Val ok.

(** The run of a job returned the answer [ok]. *)
Definition answered (ok : bool) (jr : job * run bool) : bool :=
  match result (snd jr) with
  | Val b => Bool.eqb b ok
  | Raise _ => false
  end.

(** The file system after the runs [runs] that started from [s]. *)
Definition files_after (s : fs) (runs : list (job * run bool)) : fs :=
  match last runs with
  | Some jr => files (snd jr)
  | None => s
  end.

(** ** The laws of the monad *)

Lemma run_eta {A} (r : run A) : Run (result r) (files r) (trace r) = r.
Proof. destruct r; reflexivity. Qed.

(** The two laws of sequencing: a value is passed on and the traces are
    joined; an exception skips what follows. *)
Lemma bind_val {A B} (m : M A) (k : A -> M B) (s s1 s2 : fs) (a : A)
    (r2 : res B) (t t2 t' : list event) :
  m s = Run (Val a) s1 t ->
  k a s1 = Run r2 s2 t2 ->
  t' = t ++ t2 ->
  bind m k s = Run r2 s2 t'.
Proof.
  intros Hm Hk ->. unfold bind. rewrite Hm. cbn [result files trace].
  rewrite Hk. reflexivity.
Qed.

Lemma bind_raise {A B} (m : M A) (k : A -> M B) (s s1 : fs) (e : exn)
    (t : list event) :
  m s = Run (Raise e) s1 t ->
  bind m k s = Run (Raise e) s1 t.
Proof. intros Hm. unfold bind. rewrite Hm. reflexivity. Qed.

(** The two laws of [try]: a value leaves it as it is; an exception runs
    the handler on the file system at the point of the exception. *)
Lemma try_val {A} (m : M A) (h : exn -> M A) (s s1 : fs) (a : A)
    (t : list event) :
  m s = Run (Val a) s1 t ->
  try_except m h s = Run (Val a) s1 t.
Proof. intros Hm. unfold try_except. rewrite Hm. reflexivity. Qed.

Lemma try_raise {A} (m : M A) (h : exn -> M A) (s s1 s2 : fs) (e : exn)
    (r2 : res A) (t t2 t' : list event) :
  m s = Run (Raise e) s1 t ->
  h e s1 = Run r2 s2 t2 ->
  t' = t ++ t2 ->
  try_except m h s = Run r2 s2 t'.
Proof.
  intros Hm Hh ->. unfold try_except. rewrite Hm. cbn [result files trace].
  rewrite Hh. reflexivity.
Qed.

(** A sequence seen from its first command, whatever that command does. *)
Lemma bind_run {A B} (m : M A) (k : A -> M B) (s : fs) :
  bind m k s =
    match result (m s) with
    | Val a =>
        Run (result (k a (files (m s)))) (files (k a (files (m s))))
          (trace (m s) ++ trace (k a (files (m s))))
    | Raise e => Run (Raise e) (files (m s)) (trace (m s))
    end.
Proof. reflexivity. Qed.

(** Run the first command of a sequence with [lem]; what is left is the
    run of the continuation. *)
Ltac bind_with lem :=
  eapply bind_val; [lem | cbv beta | reflexivity].

Lemma os_remove_val (p : string) (s : fs) (n : N) :
  s !! p = Some n -> os_remove p s = Run (Val tt) (delete p s) [ERemove p].
Proof. intros Hs. unfold os_remove. rewrite Hs. reflexivity. Qed.

Lemma os_remove_exc (p : string) (s : fs) :
  s !! p = None -> os_remove p s = Run (Raise (no_such_file p)) s [ERemove p].
Proof. intros Hs. unfold os_remove. rewrite Hs. reflexivity. Qed.

Lemma printed_app (t u : list event) : printed (t ++ u) = printed t ++ printed u.
Proof.
  induction t as [|e t IH]; [reflexivity|].
  destruct e; cbn [printed app]; rewrite IH; reflexivity.
Qed.

Lemma reliable_calm : calm reliable.
Proof. split; reflexivity. Qed.

(** ** The script on a calm platform *)

Section Calm.

Variable amb : platform.
Variable env : environment.
Hypothesis Hcalm : calm amb.

Lemma print_io (line : string) (s : fs) :
  IO.print amb line s = Run (Val tt) s [EPrint line].
Proof. unfold IO.print. rewrite (proj1 Hcalm). reflexivity. Qed.

Ltac bind_print := bind_with ltac:(apply print_io).

Lemma render_handler_run_io e s :
  IO.render_handler amb e s = Run (Val false) s [EPrint (failure_line e)].
Proof.
  unfold IO.render_handler, failure_line.
  destruct (is_ImportError e); bind_print; reflexivity.
Qed.

Lemma path_exists_found_io (p : string) (s : fs) :
  is_Some (s !! p) -> IO.path_exists amb p s = Run (Val true) s [EExists p true].
Proof.
  intros Hs. unfold IO.path_exists. rewrite (proj2 Hcalm).
  rewrite bool_decide_eq_true_2 by assumption. reflexivity.
Qed.

Lemma path_exists_missing_io (p : string) (s : fs) :
  s !! p = None -> IO.path_exists amb p s = Run (Val false) s [EExists p false].
Proof.
  intros Hs. unfold IO.path_exists. rewrite (proj2 Hcalm).
  rewrite bool_decide_eq_false_2 by (rewrite Hs; apply is_Some_None).
  reflexivity.
Qed.

Lemma stat_size_val_io (p : string) (s : fs) (n : N) :
  s !! p = Some n -> IO.stat_size amb p s = Run (Val n) s [EStat p].
Proof.
  intros Hs. unfold IO.stat_size. rewrite (proj2 Hcalm), Hs. reflexivity.
Qed.

Lemma import_weasyprint_val s :
  import_HTML env s = None ->
  IO.import_weasyprint env s = Run (Val tt) s [EImport].
Proof. intros Hi. unfold IO.import_weasyprint. rewrite Hi. reflexivity. Qed.

Lemma import_weasyprint_exc s e :
  import_HTML env s = Some e ->
  IO.import_weasyprint env s = Run (Raise e) s [EImport].
Proof. intros Hi. unfold IO.import_weasyprint. rewrite Hi. reflexivity. Qed.

Lemma HTML_write_pdf_val html pdf s s2 :
  write_pdf env html pdf s = (None, s2) ->
  IO.HTML_write_pdf env html pdf s = Run (Val tt) s2 [EWritePdf html pdf].
Proof. intros Hw. unfold IO.HTML_write_pdf. rewrite Hw. reflexivity. Qed.

Lemma HTML_write_pdf_exc html pdf s s2 e :
  write_pdf env html pdf s = (Some e, s2) ->
  IO.HTML_write_pdf env html pdf s = Run (Raise e) s2 [EWritePdf html pdf].
Proof. intros Hw. unfold IO.HTML_write_pdf. rewrite Hw. reflexivity. Qed.

Lemma subprocess_run_val args s cp s1 :
  subprocess_run env args s = (inr cp, s1) ->
  IO.subprocess_run_ env args s = Run (Val cp) s1 [ERun args].
Proof. intros Hr. unfold IO.subprocess_run_. rewrite Hr. reflexivity. Qed.

Lemma subprocess_run_exc args s e s1 :
  subprocess_run env args s = (inl e, s1) ->
  IO.subprocess_run_ env args s = Run (Raise e) s1 [ERun args].
Proof. intros Hr. unfold IO.subprocess_run_. rewrite Hr. reflexivity. Qed.

(** The import fails: the handler runs on an untouched file system. *)
Lemma try_block_import_error_io html pdf s e :
  import_HTML env s = Some e ->
  IO.try_block amb env html pdf s
    = Run (Val false) s [EImport; EPrint (failure_line e)].
Proof.
  intros Hi. unfold IO.try_block.
  eapply (try_raise _ _ _ _ _ _ _ [EImport]);
    [|apply render_handler_run_io|reflexivity].
  unfold IO.render_and_clean. apply bind_raise.
  apply import_weasyprint_exc. exact Hi.
Qed.

(** The renderer raises: the handler runs on what the renderer left. *)
Lemma try_block_render_error_io html pdf s e s2 :
  import_HTML env s = None ->
  write_pdf env html pdf s = (Some e, s2) ->
  IO.try_block amb env html pdf s =
    Run (Val false) s2
      [EImport; EPrint "  Step 2: Converting HTML to PDF...";
       EWritePdf html pdf; EPrint (failure_line e)].
Proof.
  intros Hi Hw. unfold IO.try_block.
  eapply (try_raise _ _ _ _ _ _ _
            [EImport; EPrint "  Step 2: Converting HTML to PDF...";
             EWritePdf html pdf]);
    [|apply render_handler_run_io|reflexivity].
  unfold IO.render_and_clean.
  bind_with ltac:(apply import_weasyprint_val; exact Hi).
  bind_print.
  apply bind_raise. apply HTML_write_pdf_exc. exact Hw.
Qed.

(** The PDF is written but the HTML file is not there to be removed. *)
Lemma try_block_remove_error_io html pdf s s2 :
  import_HTML env s = None ->
  write_pdf env html pdf s = (None, s2) ->
  s2 !! html = None ->
  IO.try_block amb env html pdf s =
    Run (Val false) s2
      [EImport; EPrint "  Step 2: Converting HTML to PDF...";
       EWritePdf html pdf; EPrint ("  ✓ PDF generated: " +:+ pdf);
       ERemove html; EPrint (failure_line (no_such_file html))].
Proof.
  intros Hi Hw Hh. unfold IO.try_block.
  eapply (try_raise _ _ _ _ _ _ _
            [EImport; EPrint "  Step 2: Converting HTML to PDF...";
             EWritePdf html pdf; EPrint ("  ✓ PDF generated: " +:+ pdf);
             ERemove html]);
    [|apply render_handler_run_io|reflexivity].
  unfold IO.render_and_clean.
  bind_with ltac:(apply import_weasyprint_val; exact Hi).
  bind_print.
  bind_with ltac:(apply HTML_write_pdf_val; exact Hw).
  bind_print.
  apply bind_raise. apply os_remove_exc. exact Hh.
Qed.

(** Every step of the [try] block succeeds. *)
Lemma try_block_success_io html pdf s s2 n :
  import_HTML env s = None ->
  write_pdf env html pdf s = (None, s2) ->
  s2 !! html = Some n ->
  IO.try_block amb env html pdf s =
    Run (Val true) (delete html s2)
      [EImport; EPrint "  Step 2: Converting HTML to PDF...";
       EWritePdf html pdf; EPrint ("  ✓ PDF generated: " +:+ pdf);
       ERemove html; EPrint "  ✓ Cleaned up temporary HTML file"].
Proof.
  intros Hi Hw Hh. unfold IO.try_block. apply try_val.
  unfold IO.render_and_clean.
  bind_with ltac:(apply import_weasyprint_val; exact Hi).
  bind_print.
  bind_with ltac:(apply HTML_write_pdf_val; exact Hw).
  bind_print.
  bind_with ltac:(eapply os_remove_val; exact Hh).
  bind_print.
  reflexivity.
Qed.


(** [pandoc] cannot be launched: the exception leaves [markdown_to_pdf]. *)
Lemma markdown_to_pdf_launch_error_io md pdf s e s1 :
  subprocess_run env (cmd_html md (html_file_of md)) s = (inl e, s1) ->
  IO.markdown_to_pdf amb env md pdf s = Run (Raise e) s1 (step1_trace md).
Proof.
  intros Hr. unfold IO.markdown_to_pdf, step1_trace.
  bind_print. cbv zeta. bind_print.
  apply bind_raise. apply subprocess_run_exc. exact Hr.
Qed.

(** [pandoc] exits with a non-zero status. *)
Lemma markdown_to_pdf_nonzero_io md pdf s cp s1 :
  subprocess_run env (cmd_html md (html_file_of md)) s = (inr cp, s1) ->
  returncode cp <> 0%Z ->
  IO.markdown_to_pdf amb env md pdf s =
    Run (Val false) s1
      (step1_trace md ++ [EPrint ("Error converting to HTML: " +:+ stderr cp)]).
Proof.
  intros Hr Hc. unfold IO.markdown_to_pdf, step1_trace. cbn [app].
  bind_print. cbv zeta. bind_print.
  bind_with ltac:(apply subprocess_run_val; exact Hr).
  destruct (Z.eqb_spec (returncode cp) 0) as [|_]; [contradiction|].
  cbn [negb]. bind_print. reflexivity.
Qed.

(** [pandoc] exits with status 0: the [try] block decides. *)
Lemma markdown_to_pdf_zero_io md pdf s cp s1 :
  subprocess_run env (cmd_html md (html_file_of md)) s = (inr cp, s1) ->
  returncode cp = 0%Z ->
  IO.markdown_to_pdf amb env md pdf s =
    let r := IO.try_block amb env (html_file_of md) pdf s1 in
    Run (result r) (files r)
      (step1_trace md
         ++ EPrint ("  ✓ HTML generated: " +:+ html_file_of md) :: trace r).
Proof.
  intros Hr Hc. unfold IO.markdown_to_pdf, step1_trace. cbn [app]. cbv zeta.
  bind_print. bind_print.
  bind_with ltac:(apply subprocess_run_val; exact Hr).
  rewrite Hc. cbn [Z.eqb negb]. bind_print.
  symmetry. apply run_eta.
Qed.


(** A missing source: a warning, an empty line, one more failure. *)
Lemma convert_all_missing_io md pdf rest sc fc s :
  s !! md = None ->
  IO.convert_all amb env ((md, pdf) :: rest) sc fc s =
    let r := IO.convert_all amb env rest sc (fc + 1) s in
    Run (result r) (files r)
      (EExists md false :: EPrint ("⚠ File not found: " +:+ md)
         :: EPrint "" :: trace r).
Proof.
  intros Hm. cbn [IO.convert_all]. cbv zeta.
  bind_with ltac:(apply path_exists_missing_io; exact Hm).
  bind_print. bind_print.
  symmetry. apply run_eta.
Qed.

(** An existing source: [markdown_to_pdf] runs; its answer picks the
    counter, and an exception that leaves it ends the loop. *)
Lemma convert_all_found_io md pdf rest sc fc s :
  is_Some (s !! md) ->
  IO.convert_all amb env ((md, pdf) :: rest) sc fc s =
    let j := IO.markdown_to_pdf amb env md pdf s in
    match result j with
    | Val ok =>
        let r := IO.convert_all amb env rest
                   (if ok then sc + 1 else sc) (if ok then fc else fc + 1)
                   (files j) in
        Run (result r) (files r)
          (EExists md true :: trace j ++ EPrint "" :: trace r)
    | Raise e => Run (Raise e) (files j) (EExists md true :: trace j)
    end.
Proof.
  intros Hs. cbn [IO.convert_all]. cbv zeta.
  destruct (IO.markdown_to_pdf amb env md pdf s) as [[ok|e] f t] eqn:Hj;
    cbn [result files trace].
  - bind_with ltac:(apply path_exists_found_io; exact Hs).
    eapply bind_val; [exact Hj | cbv beta | reflexivity].
    destruct ok; bind_print; symmetry; apply run_eta.
  - eapply bind_val;
      [apply path_exists_found_io; exact Hs | cbv beta | reflexivity].
    apply bind_raise. exact Hj.
Qed.

End Calm.

(** The hardcoded directory cannot be entered: the exception leaves [main]
    before anything is printed, on any platform. *)
Lemma main_on_no_directory_io amb env docs s e :
  os_chdir env working_directory = Some e ->
  IO.main_on amb env docs s = Run (Raise e) s [EChdir working_directory].
Proof.
  intros Hd. unfold IO.main_on. apply bind_raise.
  unfold IO.chdir. rewrite Hd. reflexivity.
Qed.

Lemma printed_listing (docs : list job) (s : fs) :
  printed (listing docs s) = map (fun j : job => listing_line s (snd j)) docs.
Proof.
  induction docs as [|[md pdf] rest IH]; [reflexivity|].
  cbn [listing map snd]. rewrite printed_app, IH. unfold listing_line.
  destruct (s !! pdf); reflexivity.
Qed.

Section CalmRun.

Variable amb : platform.
Variable env : environment.
Hypothesis Hcalm : calm amb.

Ltac bind_print := bind_with ltac:(apply (print_io amb Hcalm)).

Lemma try_block_frame_io html pdf (s : fs) (p : string) :
  writes_only_outputs env ->
  p <> html -> p <> pdf ->
  files (IO.try_block amb env html pdf s) !! p = s !! p.
Proof.
  intros [_ Hw] Hh Hp.
  destruct (import_HTML env s) as [e|] eqn:Hi.
  { rewrite (try_block_import_error_io amb env Hcalm _ _ _ _ Hi). reflexivity. }
  destruct (write_pdf env html pdf s) as [[e|] s2] eqn:Hr;
    pose proof (Hw html pdf s p Hp) as Hs2; rewrite Hr in Hs2; cbn [snd] in Hs2.
  { rewrite (try_block_render_error_io amb env Hcalm _ _ _ _ _ Hi Hr). exact Hs2. }
  destruct (s2 !! html) as [n|] eqn:Hl.
  - rewrite (try_block_success_io amb env Hcalm _ _ _ _ _ Hi Hr Hl). cbn [files].
    rewrite lookup_delete_ne by congruence. exact Hs2.
  - rewrite (try_block_remove_error_io amb env Hcalm _ _ _ _ Hi Hr Hl). exact Hs2.
Qed.

Lemma markdown_to_pdf_frame_io md pdf (s : fs) (p : string) :
  writes_only_outputs env ->
  p <> html_file_of md -> p <> pdf ->
  files (IO.markdown_to_pdf amb env md pdf s) !! p = s !! p.
Proof.
  intros Hlocal Hh Hp.
  pose proof (proj1 Hlocal md (html_file_of md) s p Hh) as Hs1.
  destruct (subprocess_run env _ s) as [[e|cp] s1] eqn:Hr; cbn [snd] in Hs1.
  - rewrite (markdown_to_pdf_launch_error_io amb env Hcalm _ pdf _ _ _ Hr).
    exact Hs1.
  - destruct (Z.eq_dec (returncode cp) 0%Z) as [Hc|Hc].
    + rewrite (markdown_to_pdf_zero_io amb env Hcalm _ pdf _ _ _ Hr Hc).
      cbn [files]. rewrite try_block_frame_io by assumption. exact Hs1.
    + rewrite (markdown_to_pdf_nonzero_io amb env Hcalm _ pdf _ _ _ Hr Hc).
      exact Hs1.
Qed.

(** The loop leaves alone every file that none of its jobs names. *)
Lemma convert_all_frame_io docs sc fc (s : fs) (p : string) :
  writes_only_outputs env ->
  untouched_by p docs ->
  files (IO.convert_all amb env docs sc fc s) !! p = s !! p.
Proof.
  intros Hlocal. revert sc fc s.
  induction docs as [|[md pdf] rest IH]; intros sc fc s Hu.
  - reflexivity.
  - apply Forall_cons in Hu as [[Hh Hp] Hu]. cbn [fst snd] in Hh, Hp.
    destruct (s !! md) as [n|] eqn:Hm.
    + rewrite (convert_all_found_io amb env Hcalm) by (rewrite Hm; eauto).
      cbn zeta.
      pose proof (markdown_to_pdf_frame_io md pdf s p Hlocal
                    (not_eq_sym Hh) (not_eq_sym Hp)) as Hj.
      destruct (result (IO.markdown_to_pdf amb env md pdf s)) as [ok|e];
        cbn [files]; [rewrite IH by assumption|]; exact Hj.
    + rewrite (convert_all_missing_io amb env Hcalm) by assumption.
      cbn [files]. apply IH; assumption.
Qed.



Lemma markdown_to_pdf_success_io md pdf s s1 s2 cp n :
  subprocess_run env (cmd_html md (html_file_of md)) s = (inr cp, s1) ->
  returncode cp = 0%Z ->
  import_HTML env s1 = None ->
  write_pdf env (html_file_of md) pdf s1 = (None, s2) ->
  s2 !! html_file_of md = Some n ->
  IO.markdown_to_pdf amb env md pdf s =
    Run (Val true) (delete (html_file_of md) s2)
      (html_done_trace md
         ++ [EImport; EPrint "  Step 2: Converting HTML to PDF...";
             EWritePdf (html_file_of md) pdf;
             EPrint ("  ✓ PDF generated: " +:+ pdf);
             ERemove (html_file_of md);
             EPrint "  ✓ Cleaned up temporary HTML file"]).
Proof.
  intros Hr Hc Hi Hw Hn.
  rewrite (markdown_to_pdf_zero_io amb env Hcalm md pdf s cp s1 Hr Hc). cbn zeta.
  rewrite (try_block_success_io amb env Hcalm _ _ _ _ _ Hi Hw Hn).
  unfold html_done_trace. rewrite <- app_assoc. reflexivity.
Qed.


Lemma list_pdfs_run_io (docs : list job) (s : fs) :
  IO.list_pdfs amb docs s = Run (Val tt) s (listing docs s).
Proof.
  induction docs as [|[md pdf] rest IH]; [reflexivity|].
  cbn [IO.list_pdfs listing].
  destruct (s !! pdf) as [n|] eqn:Hp; cbn [app].
  - bind_with ltac:(apply (path_exists_found_io amb Hcalm); rewrite Hp; eauto).
    bind_with ltac:(apply (stat_size_val_io amb Hcalm); exact Hp).
    bind_print. exact IH.
  - bind_with ltac:(apply (path_exists_missing_io amb Hcalm); exact Hp).
    bind_print. exact IH.
Qed.

(** The directory is entered: the header, the loop and, when the loop
    returns, the summary and the listing. *)
Lemma main_on_run_io docs s :
  os_chdir env working_directory = None ->
  IO.main_on amb env docs s =
    let c := IO.convert_all amb env docs 0 0 s in
    match result c with
    | Val (sc, fc) =>
        Run (Val tt) (files c)
          (header ++ trace c ++ footer sc fc ++ listing docs (files c))
    | Raise e => Run (Raise e) (files c) (header ++ trace c)
    end.
Proof.
  intros Hd. cbv zeta.
  assert (Hcd : IO.chdir env working_directory s
                = Run (Val tt) s [EChdir working_directory]).
  { unfold IO.chdir. rewrite Hd. reflexivity. }
  destruct (IO.convert_all amb env docs 0 0 s) as [[[sc fc]|e] f t] eqn:Hc;
    cbn [result files trace]; unfold IO.main_on, header, footer; cbn [app].
  - bind_with ltac:(exact Hcd).
    bind_print. bind_print. bind_print. bind_print.
    bind_with ltac:(exact Hc). cbn [fst snd].
    bind_print. bind_print. bind_print. bind_print.
    apply list_pdfs_run_io.
  - bind_with ltac:(exact Hcd).
    bind_print. bind_print. bind_print. bind_print.
    apply bind_raise. exact Hc.
Qed.




Lemma convert_all_all_missing_io docs sc fc (s : fs) :
  Forall (fun j : job => s !! fst j = None) docs ->
  IO.convert_all amb env docs sc fc s =
    Run (Val (sc, fc + length docs)) s
      (concat (map (fun j : job => missing_chunk (fst j)) docs)).
Proof.
  revert fc. induction docs as [|[md pdf] rest IH]; intros fc Hall.
  - cbn. rewrite Nat.add_0_r. reflexivity.
  - apply Forall_cons in Hall as [Hm Hall]. cbn [fst] in Hm.
    rewrite (convert_all_missing_io amb env Hcalm) by exact Hm. cbn zeta.
    rewrite (IH (fc + 1) Hall). cbn [result files trace length map concat].
    unfold missing_chunk at 2. cbn [fst app].
    replace (fc + 1 + length rest) with (fc + S (length rest)) by lia.
    reflexivity.
Qed.

End CalmRun.

(** ** The script on the reliable platform *)

Section Reliable.

Variable env : environment.

Lemma try_block_import_error html pdf s e :
  import_HTML env s = Some e ->
  try_block env html pdf s = Run (Val false) s [EImport; EPrint (failure_line e)].
Proof. apply (try_block_import_error_io reliable env reliable_calm). Qed.

Lemma try_block_render_error html pdf s e s2 :
  import_HTML env s = None ->
  write_pdf env html pdf s = (Some e, s2) ->
  try_block env html pdf s =
    Run (Val false) s2
      [EImport; EPrint "  Step 2: Converting HTML to PDF...";
       EWritePdf html pdf; EPrint (failure_line e)].
Proof. apply (try_block_render_error_io reliable env reliable_calm). Qed.

Lemma try_block_remove_error html pdf s s2 :
  import_HTML env s = None ->
  write_pdf env html pdf s = (None, s2) ->
  s2 !! html = None ->
  try_block env html pdf s =
    Run (Val false) s2
      [EImport; EPrint "  Step 2: Converting HTML to PDF...";
       EWritePdf html pdf; EPrint ("  ✓ PDF generated: " +:+ pdf);
       ERemove html; EPrint (failure_line (no_such_file html))].
Proof. apply (try_block_remove_error_io reliable env reliable_calm). Qed.

Lemma try_block_success html pdf s s2 n :
  import_HTML env s = None ->
  write_pdf env html pdf s = (None, s2) ->
  s2 !! html = Some n ->
  try_block env html pdf s =
    Run (Val true) (delete html s2)
      [EImport; EPrint "  Step 2: Converting HTML to PDF...";
       EWritePdf html pdf; EPrint ("  ✓ PDF generated: " +:+ pdf);
       ERemove html; EPrint "  ✓ Cleaned up temporary HTML file"].
Proof. apply (try_block_success_io reliable env reliable_calm). Qed.

Lemma markdown_to_pdf_launch_error md pdf s e s1 :
  subprocess_run env (cmd_html md (html_file_of md)) s = (inl e, s1) ->
  markdown_to_pdf env md pdf s = Run (Raise e) s1 (step1_trace md).
Proof. apply (markdown_to_pdf_launch_error_io reliable env reliable_calm). Qed.

Lemma markdown_to_pdf_nonzero md pdf s cp s1 :
  subprocess_run env (cmd_html md (html_file_of md)) s = (inr cp, s1) ->
  returncode cp <> 0%Z ->
  markdown_to_pdf env md pdf s =
    Run (Val false) s1
      (step1_trace md ++ [EPrint ("Error converting to HTML: " +:+ stderr cp)]).
Proof. apply (markdown_to_pdf_nonzero_io reliable env reliable_calm). Qed.

Lemma markdown_to_pdf_zero md pdf s cp s1 :
  subprocess_run env (cmd_html md (html_file_of md)) s = (inr cp, s1) ->
  returncode cp = 0%Z ->
  markdown_to_pdf env md pdf s =
    let r := try_block env (html_file_of md) pdf s1 in
    Run (result r) (files r)
      (step1_trace md
         ++ EPrint ("  ✓ HTML generated: " +:+ html_file_of md) :: trace r).
Proof. apply (markdown_to_pdf_zero_io reliable env reliable_calm). Qed.


Lemma convert_all_frame (Hlocal : writes_only_outputs env) docs sc fc (s : fs)
    (p : string) :
  untouched_by p docs ->
  files (convert_all env docs sc fc s) !! p = s !! p.
Proof. apply (convert_all_frame_io reliable env reliable_calm). exact Hlocal. Qed.

End Reliable.



Lemma markdown_to_pdf_success env md pdf s s1 s2 cp n :
  subprocess_run env (cmd_html md (html_file_of md)) s = (inr cp, s1) ->
  returncode cp = 0%Z ->
  import_HTML env s1 = None ->
  write_pdf env (html_file_of md) pdf s1 = (None, s2) ->
  s2 !! html_file_of md = Some n ->
  markdown_to_pdf env md pdf s =
    Run (Val true) (delete (html_file_of md) s2)
      (html_done_trace md
         ++ [EImport; EPrint "  Step 2: Converting HTML to PDF...";
             EWritePdf (html_file_of md) pdf;
             EPrint ("  ✓ PDF generated: " +:+ pdf);
             ERemove (html_file_of md);
             EPrint "  ✓ Cleaned up temporary HTML file"]).
Proof. apply (markdown_to_pdf_success_io reliable env reliable_calm). Qed.


Lemma main_on_no_directory env docs s e :
  os_chdir env working_directory = Some e ->
  main_on env docs s = Run (Raise e) s [EChdir working_directory].
Proof. apply main_on_no_directory_io. Qed.

Lemma main_on_run env docs s :
  os_chdir env working_directory = None ->
  main_on env docs s =
    let c := convert_all env docs 0 0 s in
    match result c with
    | Val (sc, fc) =>
        Run (Val tt) (files c)
          (header ++ trace c ++ footer sc fc ++ listing docs (files c))
    | Raise e => Run (Raise e) (files c) (header ++ trace c)
    end.
Proof. apply (main_on_run_io reliable env reliable_calm). Qed.



(** ** The script on any platform *)

(** A sequence that returns: its first command returned, and the rest
    returned from where the first command stopped. *)
Lemma bind_val_inv {A B} (m : M A) (k : A -> M B) (s : fs) (b : B) :
  result (bind m k s) = Val b ->
  exists a,
    result (m s) = Val a
    /\ result (k a (files (m s))) = Val b
    /\ bind m k s =
         Run (Val b) (files (k a (files (m s))))
           (trace (m s) ++ trace (k a (files (m s)))).
Proof.
  rewrite bind_run. destruct (result (m s)) as [a|e]; [|discriminate].
  cbn [result]. intros Hk. exists a. rewrite Hk. auto.
Qed.

Lemma chdir_then_val_inv env dir {B} (k : M B) (s : fs) (b : B) :
  result (bind (IO.chdir env dir) (fun _ => k) s) = Val b ->
  os_chdir env dir = None
  /\ result (k s) = Val b
  /\ bind (IO.chdir env dir) (fun _ => k) s =
       Run (Val b) (files (k s)) (EChdir dir :: trace (k s)).
Proof.
  rewrite bind_run. unfold IO.chdir.
  destruct (os_chdir env dir); cbn [result files trace]; [discriminate|].
  intros Hk. rewrite Hk. auto.
Qed.

Lemma print_then_val_inv amb line {B} (k : M B) (s : fs) (b : B) :
  result (bind (IO.print amb line) (fun _ => k) s) = Val b ->
  result (k s) = Val b
  /\ bind (IO.print amb line) (fun _ => k) s =
       Run (Val b) (files (k s)) (EPrint line :: trace (k s)).
Proof.
  rewrite bind_run. unfold IO.print.
  destruct (stdout_write amb line s); cbn [result files trace]; [discriminate|].
  intros Hk. rewrite Hk. auto.
Qed.

Lemma path_exists_then_val_inv amb p {B} (k : bool -> M B) (s : fs) (b : B) :
  result (bind (IO.path_exists amb p) k s) = Val b ->
  result (k (bool_decide (is_Some (s !! p))) s) = Val b
  /\ bind (IO.path_exists amb p) k s =
       Run (Val b) (files (k (bool_decide (is_Some (s !! p))) s))
         (EExists p (bool_decide (is_Some (s !! p)))
            :: trace (k (bool_decide (is_Some (s !! p))) s)).
Proof.
  rewrite bind_run. unfold IO.path_exists.
  destruct (stat_error amb p s); cbn [result files trace]; [discriminate|].
  intros Hk. rewrite Hk. auto.
Qed.

Lemma stat_size_then_val_inv amb p {B} (k : N -> M B) (s : fs) (b : B) :
  result (bind (IO.stat_size amb p) k s) = Val b ->
  exists n,
    s !! p = Some n
    /\ result (k n s) = Val b
    /\ bind (IO.stat_size amb p) k s =
         Run (Val b) (files (k n s)) (EStat p :: trace (k n s)).
Proof.
  rewrite bind_run. unfold IO.stat_size.
  destruct (stat_error amb p s); cbn [result files trace]; [discriminate|].
  destruct (s !! p) as [n|]; cbn [result files trace]; [|discriminate].
  intros Hk. exists n. rewrite Hk. auto.
Qed.

(** A listing that returns has asked and printed what [listing] tells, and
    has changed no file. *)
Lemma list_pdfs_val_inv amb (docs : list job) (s : fs) :
  result (IO.list_pdfs amb docs s) = Val tt ->
  IO.list_pdfs amb docs s = Run (Val tt) s (listing docs s).
Proof.
  induction docs as [|[md pdf] rest IH]; [reflexivity|].
  cbn [IO.list_pdfs listing]. intros Hv.
  apply path_exists_then_val_inv in Hv as [Hv ->].
  destruct (s !! pdf) as [n|] eqn:Hp.
  - rewrite bool_decide_eq_true_2 in Hv |- * by eauto.
    apply stat_size_then_val_inv in Hv as (n' & Hn & Hv & ->).
    rewrite Hp in Hn. injection Hn as <-.
    apply print_then_val_inv in Hv as [Hv ->].
    rewrite (IH Hv). reflexivity.
  - rewrite bool_decide_eq_false_2 in Hv |- * by (intros [? ?]; discriminate).
    apply print_then_val_inv in Hv as [Hv ->].
    rewrite (IH Hv). reflexivity.
Qed.

(** A run of [main] that returns, on any platform: the directory was
    entered, the loop returned its two counters, and the trace is the
    header, the loop, the summary and the listing. *)
Lemma main_on_val_inv amb env docs s :
  result (IO.main_on amb env docs s) = Val tt ->
  exists sc fc,
    result (IO.convert_all amb env docs 0 0 s) = Val (sc, fc)
    /\ IO.main_on amb env docs s =
         Run (Val tt) (files (IO.convert_all amb env docs 0 0 s))
           (header ++ trace (IO.convert_all amb env docs 0 0 s) ++ footer sc fc
              ++ listing docs (files (IO.convert_all amb env docs 0 0 s))).
Proof.
  unfold IO.main_on. intros Hv.
  apply chdir_then_val_inv in Hv as (_ & Hv & ->).
  apply print_then_val_inv in Hv as [Hv ->].
  apply print_then_val_inv in Hv as [Hv ->].
  apply print_then_val_inv in Hv as [Hv ->].
  apply print_then_val_inv in Hv as [Hv ->].
  apply bind_val_inv in Hv as ([sc fc] & Hc & Hv & ->).
  cbv beta in Hv |- *. cbn [fst snd] in Hv |- *.
  exists sc, fc. split; [exact Hc|].
  apply print_then_val_inv in Hv as [Hv ->].
  apply print_then_val_inv in Hv as [Hv ->].
  apply print_then_val_inv in Hv as [Hv ->].
  apply print_then_val_inv in Hv as [Hv ->].
  rewrite (list_pdfs_val_inv _ _ _ Hv). reflexivity.
Qed.

(** The body of the loop, between any commands: the loop goes on with the
    answer of the body. *)
Lemma loop_body_law {A} (pe m2p : M bool) (pw pr : M unit) (K : bool -> M A)
    (s : fs) :
  bind pe (fun found : bool =>
    if found then
      bind m2p (fun ok : bool =>
        if ok then bind pr (fun _ => K true) else bind pr (fun _ => K false))
    else bind pw (fun _ => bind pr (fun _ => K false))) s
  = let r := bind pe (fun found : bool =>
               if found then bind m2p (fun ok => bind pr (fun _ => ret ok))
               else bind pw (fun _ => bind pr (fun _ => ret false))) s in
    match result r with
    | Val ok =>
        let c := K ok (files r) in
        Run (result c) (files c) (trace r ++ trace c)
    | Raise e => Run (Raise e) (files r) (trace r)
    end.
Proof.
  unfold bind, ret.
  destruct (pe s) as [[[|]|e] s1 t1]; cbn [result files trace]; [| |reflexivity].
  - destruct (m2p s1) as [[ok|e] s2 t2]; cbn [result files trace];
      [|reflexivity].
    destruct ok; destruct (pr s2) as [[u|e] s3 t3]; cbn [result files trace];
      rewrite ?app_nil_r, ?app_assoc; reflexivity.
  - destruct (pw s1) as [[u|e] s2 t2]; cbn [result files trace]; [|reflexivity].
    destruct (pr s2) as [[u'|e] s3 t3]; cbn [result files trace];
      rewrite ?app_nil_r, ?app_assoc; reflexivity.
Qed.

(** One turn of the loop of [main]: the body runs on the first job; when it
    returns, one counter grows and the loop goes on with the other jobs on
    the file system the body left; when it raises, the loop ends there. *)
Lemma convert_all_step amb env (j : job) rest sc fc s :
  IO.convert_all amb env (j :: rest) sc fc s =
    let r := job_run amb env j s in
    match result r with
    | Val ok =>
        let c := IO.convert_all amb env rest
                   (if ok then sc + 1 else sc) (if ok then fc else fc + 1)
                   (files r) in
        Run (result c) (files c) (trace r ++ trace c)
    | Raise e => Run (Raise e) (files r) (trace r)
    end.
Proof.
  destruct j as [md pdf].
  exact (loop_body_law (IO.path_exists amb md) (IO.markdown_to_pdf amb env md pdf)
           (IO.print amb ("⚠ File not found: " +:+ md)) (IO.print amb "")
           (fun ok : bool =>
              IO.convert_all amb env rest
                (if ok then sc + 1 else sc) (if ok then fc else fc + 1)) s).
Qed.


(** ** Rounding and the size in megabytes *)

Lemma round_half_even_nearest (n d : N) :
  (0 < d)%N -> nearest_even n d (PyStr.round_half_even n d).
Proof.
  intros Hd. unfold nearest_even, PyStr.round_half_even.
  pose proof (N.div_mod n d ltac:(lia)) as Hdm.
  pose proof (N.mod_lt n d ltac:(lia)) as Hlt.
  set (q := (n / d)%N) in *. set (r := (n mod d)%N) in *.
  destruct (N.compare_spec (2 * r) d) as [He|Hl|Hg].
  - destruct (N.even q) eqn:Hev.
    + split; [nia|split; [nia|intros _; exact Hev]].
    + split; [nia|split; [nia|intros _]].
      rewrite N.add_1_r, N.even_succ, <- N.negb_even, Hev. reflexivity.
  - split; [nia|split; [nia|intros [H|H]; nia]].
  - split; [nia|split; [nia|intros [H|H]; nia]].
Qed.

Lemma nearest_even_unique (n d q1 q2 : N) :
  (0 < d)%N -> nearest_even n d q1 -> nearest_even n d q2 -> q1 = q2.
Proof.
  intros Hd.
  assert (Hlt : forall a b : N,
             (a < b)%N -> nearest_even n d a -> nearest_even n d b -> False).
  { intros a b Hab (Ha1 & Ha2 & Ha3) (Hb1 & Hb2 & Hb3).
    assert (Hb : b = (a + 1)%N) by nia. subst b.
    assert (Hea : N.even a = true) by (apply Ha3; left; nia).
    assert (Heb : N.even (a + 1) = true) by (apply Hb3; right; nia).
    rewrite N.add_1_r, N.even_succ, <- N.negb_even, Hea in Heb.
    discriminate. }
  intros H1 H2.
  destruct (N.lt_trichotomy q1 q2) as [H|[H|H]]; [|exact H|];
    exfalso; eauto.
Qed.

Lemma double_unit_pos (n u : N) : double_unit n u -> (0 < u)%N.
Proof.
  intros [[_ ->]|(k & -> & _)]; [lia|].
  apply N.neq_0_lt_0, N.pow_nonzero. lia.
Qed.

Lemma double_unit_unique (n u1 u2 : N) :
  double_unit n u1 -> double_unit n u2 -> u1 = u2.
Proof.
  assert (Hsmall : forall k : N,
             (n < 2 ^ 53)%N -> (2 ^ 52 * 2 ^ k <= n)%N -> (2 ^ k = 1)%N).
  { intros k Hn Hk. destruct (N.eq_dec k 0%N) as [->|Hk0]; [reflexivity|].
    assert (H2 : (2 ^ 1 <= 2 ^ k)%N) by (apply N.pow_le_mono_r; lia).
    change (2 ^ 1)%N with 2%N in H2. change (2 ^ 53)%N with (2 ^ 52 * 2)%N in Hn.
    nia. }
  assert (Hle : forall a b : N,
             (2 ^ 52 * 2 ^ a <= n)%N -> (n < 2 ^ 53 * 2 ^ b)%N -> (a <= b)%N).
  { intros a b Ha Hb.
    assert (H : (2 ^ a < 2 ^ (b + 1))%N).
    { rewrite N.pow_add_r. change (2 ^ 1)%N with 2%N.
      change (2 ^ 53)%N with (2 ^ 52 * 2)%N in Hb. nia. }
    apply N.pow_lt_mono_r_iff in H; lia. }
  intros [[H1 ->]|(k1 & -> & Hl1 & Hu1)] [[H2 ->]|(k2 & -> & Hl2 & Hu2)].
  - reflexivity.
  - symmetry. eauto.
  - eauto.
  - f_equal. apply N.le_antisymm; eauto.
Qed.

(** [float(n)] is a multiple of the unit of [n], the nearest one. *)
Lemma to_double_nearest (n : N) :
  exists u m : N,
    double_unit n u /\ nearest_even n u m /\ PyStr.to_double n = (m * u)%N.
Proof.
  unfold PyStr.to_double. destruct (n <? 2 ^ 53)%N eqn:Hn.
  - apply N.ltb_lt in Hn. exists 1%N, n. split; [left; split; [exact Hn|reflexivity]|].
    split; [|lia]. unfold nearest_even. split; [lia|split; [lia|intros [H|H]; lia]].
  - apply N.ltb_ge in Hn. set (k := (N.log2 n - 52)%N).
    assert (Hpos : (0 < n)%N).
    { eapply N.lt_le_trans; [|exact Hn]. reflexivity. }
    assert (H53 : (53 <= N.log2 n)%N).
    { rewrite <- (N.log2_pow2 53) by lia. apply N.log2_le_mono. exact Hn. }
    destruct (N.log2_spec n Hpos) as [Hlo Hhi].
    assert (E52 : (2 ^ 52 * 2 ^ k = 2 ^ N.log2 n)%N).
    { rewrite <- N.pow_add_r. f_equal. unfold k. lia. }
    assert (E53 : (2 ^ 53 * 2 ^ k = 2 ^ N.succ (N.log2 n))%N).
    { rewrite <- N.pow_add_r. f_equal. unfold k. lia. }
    exists (2 ^ k)%N, (PyStr.round_half_even n (2 ^ k)).
    split; [|split; [|reflexivity]].
    + right. exists k. split; [reflexivity|]. rewrite E52, E53. split; assumption.
    + apply round_half_even_nearest. apply N.neq_0_lt_0, N.pow_nonzero. lia.
Qed.

(** The text that [size_mb] gives is the size in megabytes with two
    decimals, and the only text that is. *)
Lemma size_mb_shows (size : N) : shows_mb size (size_mb size).
Proof.
  destruct (to_double_nearest size) as (u & m & Hu & Hm & E).
  exists u, m, (PyStr.round_half_even (m * u * 100) (1024 * 1024)).
  split; [exact Hu|]. split; [exact Hm|]. split.
  - apply round_half_even_nearest. reflexivity.
  - unfold size_mb, PyStr.fixed2. rewrite E. reflexivity.
Qed.

Lemma shows_mb_unique (size : N) (t1 t2 : string) :
  shows_mb size t1 -> shows_mb size t2 -> t1 = t2.
Proof.
  intros (u1 & m1 & h1 & Hu1 & Hm1 & Hh1 & ->) (u2 & m2 & h2 & Hu2 & Hm2 & Hh2 & ->).
  assert (Eu : u1 = u2) by (eapply double_unit_unique; eassumption). subst u2.
  assert (Em : m1 = m2).
  { eapply nearest_even_unique; [|exact Hm1|exact Hm2].
    eapply double_unit_pos; eassumption. }
  subst m2.
  assert (Eh : h1 = h2).
  { eapply nearest_even_unique; [|exact Hh1|exact Hh2]. reflexivity. }
  subst h2. reflexivity.
Qed.

(** ** The failure paths of a job *)







(** ** The success path and the clean-up *)

Lemma ideal_writes_only_outputs : writes_only_outputs Envs.ideal.
Proof.
  split.
  - intros md html s p Hp. cbn [subprocess_run Envs.ideal].
    unfold Envs.pandoc, cmd_html. cbn [nth].
    destruct (s !! md); cbn [snd]; [|reflexivity].
    apply lookup_insert_ne. congruence.
  - intros html pdf s p Hp. cbn [write_pdf Envs.ideal]. unfold Envs.render.
    destruct (s !! html); cbn [snd]; [|reflexivity].
    apply lookup_insert_ne. congruence.
Qed.








(** ** [main] as a whole *)






(** C8 — a run that reaches its end has printed, after the lines of the
    jobs, the summary with the two counters of the loop between two rules
    of sixty [=], the heading of the listing and then one line per job, in
    the order of the list: for a PDF that is there at the end of the run,
    whoever wrote it, its size in units of 1024 * 1024 bytes with two
    decimals; NOT FOUND otherwise.  The listing changes no file.  With a
    single job whose source is absent the summary is "0 successful, 1
    failed", and the listing says NOT FOUND when no file is at the PDF
    path. *)
Theorem C8_summary_then_listing (amb : platform) (env : environment)
    (docs : list job) (s : fs) :
  result (IO.main_on amb env docs s) = Val tt ->
  (exists (sc fc : nat) (lines : list string),
      result (IO.convert_all amb env docs 0 0 s) = Val (sc, fc)
      /\ files (IO.main_on amb env docs s)
           = files (IO.convert_all amb env docs 0 0 s)
      /\ printed (trace (IO.main_on amb env docs s))
           = ["============================================================";
              "IOC_Config Documentation - PDF Generation";
              "============================================================";
              ""]
               ++ printed (trace (IO.convert_all amb env docs 0 0 s))
               ++ ["============================================================";
                   "Summary: " +:+ PyStr.of_nat sc +:+ " successful, "
                     +:+ PyStr.of_nat fc +:+ " failed";
                   "============================================================";
                   newline +:+ "Generated PDF files:"]
               ++ lines
      /\ Forall2
           (fun (j : job) (line : string) =>
              match files (IO.main_on amb env docs s) !! snd j with
              | Some size =>
                  exists text : string,
                    shows_mb size text
                    /\ line = "  ✓ " +:+ snd j +:+ " (" +:+ text +:+ " MB)"
              | None => line = "  ✗ " +:+ snd j +:+ " (NOT FOUND)"
              end)
           docs lines)
  /\ (forall md pdf : string,
      docs = [(md, pdf)] ->
      s !! md = None ->
      s !! pdf = None ->
      printed (trace (IO.main_on amb env docs s))
        = ["============================================================";
           "IOC_Config Documentation - PDF Generation";
           "============================================================";
           "";
           "⚠ File not found: " +:+ md; "";
           "============================================================";
           "Summary: 0 successful, 1 failed";
           "============================================================";
           newline +:+ "Generated PDF files:";
           "  ✗ " +:+ pdf +:+ " (NOT FOUND)"]).
Proof.
  intros Hv. destruct (main_on_val_inv amb env docs s Hv) as (sc & fc & Hc & Hm).
  split.
  - exists sc, fc,
      (map (fun j : job =>
              listing_line (files (IO.convert_all amb env docs 0 0 s)) (snd j))
         docs).
    split; [exact Hc|]. rewrite Hm. cbn [trace files]. split; [reflexivity|].
    split.
    + rewrite !printed_app, printed_listing. reflexivity.
    + generalize (files (IO.convert_all amb env docs 0 0 s)). intros s'.
      clear. induction docs as [|[md pdf] rest IH]; constructor; [|exact IH].
      cbn [snd]. unfold listing_line.
      destruct (s' !! pdf) as [size|]; [|reflexivity].
      exists (size_mb size). split; [apply size_mb_shows|reflexivity].
  - intros md pdf -> Hmd Hpdf. rewrite Hm. clear Hm Hv.
    cbn [IO.convert_all] in Hc |- *.
    apply path_exists_then_val_inv in Hc as [Hc ->].
    rewrite bool_decide_eq_false_2 in Hc |- *
      by (rewrite Hmd; intros [? ?]; discriminate).
    apply print_then_val_inv in Hc as [Hc ->].
    apply print_then_val_inv in Hc as [Hc ->].
    cbn in Hc. injection Hc as <- <-.
    cbn [ret result files trace listing]. rewrite Hpdf. reflexivity.
Qed.

Lemma C8_summary_then_listing_witness :
  printed (trace (main_on Envs.ideal [("a.md", "a.pdf")] ∅))
    = ["============================================================";
       "IOC_Config Documentation - PDF Generation";
       "============================================================";
       "";
       "⚠ File not found: a.md"; "";
       "============================================================";
       "Summary: 0 successful, 1 failed";
       "============================================================";
       newline +:+ "Generated PDF files:";
       "  ✗ a.pdf (NOT FOUND)"].
Proof.
  refine (proj2 (C8_summary_then_listing reliable Envs.ideal [("a.md", "a.pdf")]
                   ∅ _) "a.md" "a.pdf" _ _ _); reflexivity.
Defined.

(** C8 as stated fails in its example: with the single job
    ("a.md", "a.pdf"), "a.md" absent and a file "a.pdf" of 2 MiB left in
    the directory by an earlier run, the summary is "0 successful, 1
    failed", yet the listing shows the PDF with its size, not as NOT
    FOUND. *)
Lemma C8_counterexample :
  let s : fs := {["a.pdf" := 2097152%N]} in
  s !! "a.md" = None
  /\ result (main_on Envs.ideal [("a.md", "a.pdf")] s) = Val tt
  /\ printed (trace (main_on Envs.ideal [("a.md", "a.pdf")] s))
       = ["============================================================";
          "IOC_Config Documentation - PDF Generation";
          "============================================================";
          "";
          "⚠ File not found: a.md"; "";
          "============================================================";
          "Summary: 0 successful, 1 failed";
          "============================================================";
          newline +:+ "Generated PDF files:";
          "  ✓ a.pdf (2.00 MB)"].
Proof. repeat split; vm_compute; reflexivity. Qed.

(** ** The order of the jobs *)

Lemma job_runs_head amb env docs s (j : job) (r : run bool) :
  job_runs amb env docs s !! 0 = Some (j, r) -> r = job_run amb env j s.
Proof.
  destruct docs as [|j' rest]; [discriminate|].
  cbn [job_runs]. cbv zeta. cbn [lookup list_lookup].
  intros H. injection H as <- <-. reflexivity.
Qed.

Lemma job_runs_next amb env docs s (i : nat) (j1 j2 : job) (r1 r2 : run bool) :
  job_runs amb env docs s !! i = Some (j1, r1) ->
  job_runs amb env docs s !! S i = Some (j2, r2) ->
  returned (j1, r1) /\ r2 = job_run amb env j2 (files r1).
Proof.
  revert s i. induction docs as [|j rest IH]; intros s i; [discriminate|].
  cbn [job_runs]. cbv zeta.
  destruct (result (job_run amb env j s)) as [ok|e] eqn:Hr.
  - destruct i as [|i]; cbn [lookup list_lookup].
    + intros H1 H2. injection H1 as <- <-. split; [exists ok; exact Hr|].
      eapply job_runs_head. exact H2.
    + apply IH.
  - destruct i as [|i]; cbn [lookup list_lookup]; intros H1 H2;
      discriminate.
Qed.

Lemma job_runs_prefix amb env docs s :
  map fst (job_runs amb env docs s)
    = take (length (job_runs amb env docs s)) docs.
Proof.
  revert s. induction docs as [|j rest IH]; intros s; [reflexivity|].
  cbn [job_runs]. cbv zeta.
  destruct (result (job_run amb env j s)); cbn [map fst length take].
  - rewrite <- IH. reflexivity.
  - reflexivity.
Qed.

Lemma filter_answered_cons (ok' : bool) (j : job) (r : run bool) (ok : bool)
    (tl : list (job * run bool)) :
  result r = Val ok ->
  length (List.filter (answered ok') ((j, r) :: tl))
    = (if Bool.eqb ok ok' then 1 else 0) + length (List.filter (answered ok') tl).
Proof.
  intros Hr. cbn [List.filter]. unfold answered at 1. cbn [snd]. rewrite Hr.
  destruct (Bool.eqb ok ok'); reflexivity.
Qed.

(** The loop is the run of its body on one job after another. *)
Lemma convert_all_runs amb env docs sc fc s :
  trace (IO.convert_all amb env docs sc fc s)
    = concat (map (fun jr : job * run bool => trace (snd jr))
                (job_runs amb env docs s))
  /\ files (IO.convert_all amb env docs sc fc s)
       = files_after s (job_runs amb env docs s)
  /\ match result (IO.convert_all amb env docs sc fc s) with
     | Val (a, b) =>
         map fst (job_runs amb env docs s) = docs
         /\ Forall returned (job_runs amb env docs s)
         /\ a = sc + length (List.filter (answered true) (job_runs amb env docs s))
         /\ b = fc + length (List.filter (answered false) (job_runs amb env docs s))
     | Raise e =>
         exists (front : list (job * run bool)) (j : job) (r : run bool),
           job_runs amb env docs s = front ++ [(j, r)]
           /\ Forall returned front
           /\ result r = Raise e
     end.
Proof.
  revert sc fc s. induction docs as [|j rest IH]; intros sc fc s.
  - cbn. repeat split; [constructor|lia|lia].
  - rewrite convert_all_step. cbn [job_runs]. cbv zeta.
    unfold files_after. rewrite last_cons. fold (files_after (files (job_run amb env j s))).
    destruct (result (job_run amb env j s)) as [ok|e] eqn:Hr.
    + destruct (IH (if ok then sc + 1 else sc) (if ok then fc else fc + 1)
                  (files (job_run amb env j s))) as (Ht & Hf & Hres).
      cbn [result files trace map concat snd]. rewrite Ht, Hf.
      split; [reflexivity|]. split.
      { unfold files_after. destruct (last _); reflexivity. }
      destruct (result (IO.convert_all amb env rest _ _ _)) as [[a b]|e].
      * destruct Hres as (Hm & Hall & Ha & Hb).
        cbn [map fst]. split; [rewrite Hm; reflexivity|].
        split; [constructor; [exists ok; exact Hr|exact Hall]|].
        rewrite !(filter_answered_cons _ _ _ ok) by exact Hr.
        destruct ok; cbn [Bool.eqb]; lia.
      * destruct Hres as (front & j' & r' & Hruns & Hall & Hraise).
        exists ((j, job_run amb env j s) :: front), j', r'.
        rewrite Hruns. split; [reflexivity|].
        split; [constructor; [exists ok; exact Hr|exact Hall]|exact Hraise].
    + cbn [result files trace map concat snd last]. rewrite app_nil_r.
      split; [reflexivity|]. split; [reflexivity|].
      exists [], j, (job_run amb env j s). split; [reflexivity|].
      split; [constructor|exact Hr].
Qed.

(** C7 — the loop of [main] is the run of its body on the jobs of the
    list, one after another and nothing in between: the first run starts
    on the file system the loop starts on, each later run on the file
    system the run before it left, after that run has returned.  The jobs
    that are run are an initial part of the list, each once, in the order
    of the list.  When the loop returns, every job of the list has been
    run and the counters have grown by the numbers of [True] and of
    [False] answers; when an exception leaves the loop, it is the exception
    of the last job that was run, and the jobs after that one are not
    run. *)
Theorem C7_jobs_in_order (amb : platform) (env : environment) (docs : list job)
    (sc fc : nat) (s : fs) :
  (forall (j : job) (r : run bool),
      job_runs amb env docs s !! 0 = Some (j, r) -> r = job_run amb env j s)
  /\ (forall (i : nat) (j1 j2 : job) (r1 r2 : run bool),
        job_runs amb env docs s !! i = Some (j1, r1) ->
        job_runs amb env docs s !! S i = Some (j2, r2) ->
        returned (j1, r1) /\ r2 = job_run amb env j2 (files r1))
  /\ map fst (job_runs amb env docs s)
       = take (length (job_runs amb env docs s)) docs
  /\ trace (IO.convert_all amb env docs sc fc s)
       = concat (map (fun jr : job * run bool => trace (snd jr))
                   (job_runs amb env docs s))
  /\ files (IO.convert_all amb env docs sc fc s)
       = files_after s (job_runs amb env docs s)
  /\ (forall a b : nat,
        result (IO.convert_all amb env docs sc fc s) = Val (a, b) ->
        map fst (job_runs amb env docs s) = docs
        /\ Forall returned (job_runs amb env docs s)
        /\ a = sc + length (List.filter (answered true) (job_runs amb env docs s))
        /\ b = fc + length (List.filter (answered false) (job_runs amb env docs s)))
  /\ (forall e : exn,
        result (IO.convert_all amb env docs sc fc s) = Raise e ->
        exists (front : list (job * run bool)) (j : job) (r : run bool),
          job_runs amb env docs s = front ++ [(j, r)]
          /\ Forall returned front
          /\ result r = Raise e).
Proof.
  destruct (convert_all_runs amb env docs sc fc s) as (Ht & Hf & Hres).
  split; [apply job_runs_head|]. split; [apply job_runs_next|].
  split; [apply job_runs_prefix|]. split; [exact Ht|]. split; [exact Hf|].
  split.
  - intros a b Hv. rewrite Hv in Hres. exact Hres.
  - intros e Hv. rewrite Hv in Hres. exact Hres.
Qed.

Lemma C7_jobs_in_order_witness :
  map fst (job_runs reliable Envs.ideal documents Envs.all_sources) = documents
  /\ result (convert_all Envs.ideal documents 0 0 Envs.all_sources) = Val (3, 0).
Proof.
  assert (Hv : result (convert_all Envs.ideal documents 0 0 Envs.all_sources)
               = Val (3, 0)) by (vm_compute; reflexivity).
  split; [|exact Hv].
  apply (proj1 (proj2 (proj2 (proj2 (proj2 (proj2
           (C7_jobs_in_order reliable Envs.ideal documents 0 0
              Envs.all_sources))))))
           3 0 Hv).
Defined.

(** C7 as stated fails: with the three sources present and [pandoc] not
    installed, the launch for the first job raises and ends the run; the
    second and third jobs are never looked at. *)
Lemma C7_counterexample :
  trace (main Envs.no_pandoc Envs.all_sources)
    = header ++ [EExists "REFERENCE_MANUAL.md" true]
        ++ step1_trace "REFERENCE_MANUAL.md"
  /\ result (main Envs.no_pandoc Envs.all_sources)
       = Raise (no_such_file "pandoc")
  /\ map fst (job_runs reliable Envs.no_pandoc documents Envs.all_sources)
       = [("REFERENCE_MANUAL.md", "REFERENCE_MANUAL.pdf")]
  /\ (forall found : bool,
        ~ In (EExists "IMPLEMENTATION_GUIDE.md" found)
            (trace (main Envs.no_pandoc Envs.all_sources)))
  /\ (forall found : bool,
        ~ In (EExists "ARCHITECTURE.md" found)
            (trace (main Envs.no_pandoc Envs.all_sources))).
Proof.
  assert (Ht : trace (main Envs.no_pandoc Envs.all_sources)
               = header ++ [EExists "REFERENCE_MANUAL.md" true]
                   ++ step1_trace "REFERENCE_MANUAL.md") by reflexivity.
  split; [exact Ht|]. split; [reflexivity|]. split; [reflexivity|].
  split; intros found Hin; rewrite Ht in Hin; cbn in Hin;
    intuition discriminate.
Qed.

(** ** The path of the intermediate HTML file *)

Lemma prefix_true_iff (old s : string) :
  String.prefix old s = true <-> exists b, s = old +:+ b.
Proof.
  revert s. induction old as [|c old IH]; intros s.
  - split; [intros _; exists s; reflexivity|].
    intros _. destruct s; reflexivity.
  - destruct s as [|d s]; cbn [String.prefix].
    + split; [discriminate|]. intros [b Hb]. discriminate.
    + destruct (ascii_dec c d) as [->|Hne].
      * rewrite IH. split; intros [b Hb]; exists b.
        -- cbn. rewrite Hb. reflexivity.
        -- cbn in Hb. injection Hb as ->. reflexivity.
      * split; [discriminate|]. intros [b Hb]. cbn in Hb.
        injection Hb as ? _. congruence.
Qed.

Lemma occursb_spec (old s : string) :
  PyStr.occursb old s = true <-> PyStr.occurs old s.
Proof.
  unfold PyStr.occurs. induction s as [|c s IH]; cbn [PyStr.occursb].
  - rewrite orb_false_r, prefix_true_iff. split.
    + intros [b Hb]. exists EmptyString, b. exact Hb.
    + intros (a & b & Hab). destruct a as [|? a]; [|discriminate].
      exists b. exact Hab.
  - rewrite orb_true_iff, prefix_true_iff, IH. split.
    + intros [[b Hb]|(a & b & Hab)].
      * exists EmptyString, b. exact Hb.
      * exists (String c a), b. cbn. rewrite Hab. reflexivity.
    + intros (a & b & Hab). destruct a as [|d a].
      * left. exists b. exact Hab.
      * right. cbn in Hab. injection Hab as _ ->. exists a, b. reflexivity.
Qed.

Lemma not_occurs_tail (old : string) (c : ascii) (s : string) :
  ~ PyStr.occurs old (String c s) -> ~ PyStr.occurs old s.
Proof.
  intros Hn (a & b & ->). apply Hn. exists (String c a), b. reflexivity.
Qed.

(** A match of ".md" cannot start inside a text free of ".md" and run
    into a ".md" that follows it. *)
Lemma no_straddling_match (a b : string) :
  a <> EmptyString ->
  ~ PyStr.occurs ".md" a ->
  String.prefix ".md" (a +:+ ".md" +:+ b) = false.
Proof.
  intros Hne Hn. destruct (String.prefix ".md" (a +:+ ".md" +:+ b)) eqn:Hp;
    [|reflexivity].
  exfalso. apply prefix_true_iff in Hp as [r Hr].
  destruct a as [|c a]; [congruence|].
  destruct a as [|x a]; [cbn in Hr; discriminate|].
  destruct a as [|y a]; [cbn in Hr; discriminate|].
  cbn in Hr. injection Hr as -> -> -> _.
  apply Hn. exists EmptyString, a. reflexivity.
Qed.

(** The scan copies a text free of ".md" and replaces the ".md" after it. *)
Lemma replace_scan_first_match (a b : string) :
  ~ PyStr.occurs ".md" a ->
  PyStr.replace_scan ".md" ".html" 0 (a +:+ ".md" +:+ b)
    = a +:+ ".html" +:+ PyStr.replace_scan ".md" ".html" 0 b.
Proof.
  induction a as [|c a IH]; intros Hn.
  - destruct b; reflexivity.
  - change (String c a +:+ ".md" +:+ b) with (String c (a +:+ ".md" +:+ b)).
    cbn [PyStr.replace_scan].
    change (String c (a +:+ ".md" +:+ b)) with (String c a +:+ ".md" +:+ b).
    rewrite no_straddling_match by (assumption || discriminate).
    rewrite IH by (eapply not_occurs_tail; eassumption).
    reflexivity.
Qed.

Lemma replace_scan_no_match (a : string) :
  ~ PyStr.occurs ".md" a ->
  PyStr.replace_scan ".md" ".html" 0 a = a.
Proof.
  induction a as [|c a IH]; intros Hn; [reflexivity|].
  cbn [PyStr.replace_scan].
  destruct (String.prefix ".md" (String c a)) eqn:Hp.
  - exfalso. apply Hn. apply prefix_true_iff in Hp as [r Hr].
    exists EmptyString, r. exact Hr.
  - rewrite IH by (eapply not_occurs_tail; eassumption). reflexivity.
Qed.

(** C9 — the HTML path is the Markdown path with every occurrence of
    ".md" replaced by ".html", leftmost first: a text [a] free of ".md" is
    copied, the ".md" that follows it becomes ".html", and the replacement
    goes on in what comes after; a path free of ".md" is left as it is.
    So a path whose only ".md" is its extension becomes stem + ".html",
    while "notes.md.md" and "a.mdx.md" have both occurrences replaced. *)
Theorem C9_html_path_replaces_every_md (a b : string) :
  ~ PyStr.occurs ".md" a ->
  html_file_of (a +:+ ".md" +:+ b) = a +:+ ".html" +:+ html_file_of b
  /\ html_file_of (a +:+ ".md") = a +:+ ".html"
  /\ html_file_of a = a
  /\ html_file_of "notes.md.md" = "notes.html.html"
  /\ html_file_of "a.mdx.md" = "a.htmlx.html".
Proof.
  intros Hn. unfold html_file_of, PyStr.replace. repeat split.
  - apply replace_scan_first_match. exact Hn.
  - exact (replace_scan_first_match a EmptyString Hn).
  - apply replace_scan_no_match. exact Hn.
Qed.

Lemma C9_html_path_replaces_every_md_witness :
  html_file_of "docs.v2/REFERENCE_MANUAL.md" = "docs.v2/REFERENCE_MANUAL.html".
Proof.
  refine (proj1 (proj2
    (C9_html_path_replaces_every_md "docs.v2/REFERENCE_MANUAL" EmptyString _))).
  intros Ho. apply occursb_spec in Ho. discriminate Ho.
Defined.

(** ** What the answer of [markdown_to_pdf] tells *)

(** X1 — [markdown_to_pdf] answers [True] only at the end of the success
    path: [pandoc] exited 0, the import and [write_pdf] returned, and the
    HTML file was there and has been removed. *)
Theorem X1_true_only_after_cleanup (env : environment) (md pdf : string) (s : fs) :
  result (markdown_to_pdf env md pdf s) = Val true ->
  exists (cp : CompletedProcess) (s1 s2 : fs) (n : N),
    subprocess_run env (cmd_html md (html_file_of md)) s = (inr cp, s1)
    /\ returncode cp = 0%Z
    /\ import_HTML env s1 = None
    /\ write_pdf env (html_file_of md) pdf s1 = (None, s2)
    /\ s2 !! html_file_of md = Some n
    /\ files (markdown_to_pdf env md pdf s) = delete (html_file_of md) s2.
Proof.
  intros Hv.
  destruct (subprocess_run env (cmd_html md (html_file_of md)) s)
    as [[e|cp] s1] eqn:Hr.
  { rewrite (markdown_to_pdf_launch_error env md pdf s e s1 Hr) in Hv.
    discriminate. }
  destruct (Z.eq_dec (returncode cp) 0%Z) as [Hc|Hc].
  2: { rewrite (markdown_to_pdf_nonzero env md pdf s cp s1 Hr Hc) in Hv.
       discriminate. }
  rewrite (markdown_to_pdf_zero env md pdf s cp s1 Hr Hc) in Hv |- *.
  cbn zeta in Hv |- *. cbn [result files] in Hv |- *.
  destruct (import_HTML env s1) as [e|] eqn:Hi.
  { rewrite (try_block_import_error env _ _ _ _ Hi) in Hv. discriminate. }
  destruct (write_pdf env (html_file_of md) pdf s1) as [[e|] s2] eqn:Hw.
  { rewrite (try_block_render_error env _ _ _ _ _ Hi Hw) in Hv. discriminate. }
  destruct (s2 !! html_file_of md) as [n|] eqn:Hh.
  - exists cp, s1, s2, n.
    rewrite (try_block_success env _ _ _ _ _ Hi Hw Hh).
    repeat split; assumption.
  - rewrite (try_block_remove_error env _ _ _ _ Hi Hw Hh) in Hv. discriminate.
Qed.

Lemma X1_true_only_after_cleanup_witness :
  exists (cp : CompletedProcess) (s1 s2 : fs) (n : N),
    subprocess_run Envs.ideal (cmd_html "a.md" (html_file_of "a.md"))
      {["a.md" := 10%N]} = (inr cp, s1)
    /\ returncode cp = 0%Z
    /\ import_HTML Envs.ideal s1 = None
    /\ write_pdf Envs.ideal (html_file_of "a.md") "a.pdf" s1 = (None, s2)
    /\ s2 !! html_file_of "a.md" = Some n
    /\ files (markdown_to_pdf Envs.ideal "a.md" "a.pdf" {["a.md" := 10%N]})
         = delete (html_file_of "a.md") s2.
Proof.
  apply (X1_true_only_after_cleanup Envs.ideal "a.md" "a.pdf" {["a.md" := 10%N]}).
  reflexivity.
Defined.

(** ** When the HTML path is the Markdown path *)

Lemma append_inj_l (a x y : string) : a +:+ x = a +:+ y -> x = y.
Proof.
  induction a as [|c a IH]; cbn; intros H; [exact H|].
  injection H as H. apply IH. exact H.
Qed.

Lemma not_occurs_empty : ~ PyStr.occurs ".md" EmptyString.
Proof. intros (a & b & H). destruct a; discriminate. Qed.

(** The leftmost ".md" of a text that has one. *)
Lemma leftmost_md (s : string) :
  PyStr.occurs ".md" s ->
  exists a b, s = a +:+ ".md" +:+ b /\ ~ PyStr.occurs ".md" a.
Proof.
  induction s as [|c s IH]; intros Ho.
  - destruct (not_occurs_empty Ho).
  - destruct (String.prefix ".md" (String c s)) eqn:Hp.
    + apply prefix_true_iff in Hp as [b Hb].
      exists EmptyString, b. split; [exact Hb|exact not_occurs_empty].
    + destruct Ho as (a0 & b0 & H0). destruct a0 as [|d a0].
      { assert (String.prefix ".md" (String c s) = true) as Ht
          by (apply prefix_true_iff; exists b0; exact H0).
        congruence. }
      cbn in H0. injection H0 as <- ->.
      destruct IH as (a & b & Hs & Hn); [exists a0, b0; reflexivity|].
      exists (String c a), b. split; [rewrite Hs; reflexivity|].
      intros (x & y & Hxy). destruct x as [|d x].
      * assert (String.prefix ".md" (String c (a0 +:+ ".md" +:+ b0)) = true)
          as Ht.
        { apply prefix_true_iff. exists (y +:+ ".md" +:+ b).
          rewrite Hs.
          change (String c (a +:+ ".md" +:+ b))
            with (String c a +:+ ".md" +:+ b).
          rewrite Hxy. cbn. reflexivity. }
        congruence.
      * cbn in Hxy. injection Hxy as _ ->. apply Hn. exists x, y. reflexivity.
Qed.

(** X3 — the HTML path is the Markdown path itself exactly when the
    Markdown path has no ".md" in it. *)
Theorem X3_html_path_is_source_iff_no_md (md : string) :
  html_file_of md = md <-> ~ PyStr.occurs ".md" md.
Proof.
  unfold html_file_of, PyStr.replace. split.
  - intros Heq Ho. destruct (leftmost_md md Ho) as (a & b & -> & Hn).
    rewrite (replace_scan_first_match a b Hn) in Heq.
    apply append_inj_l in Heq. discriminate Heq.
  - apply replace_scan_no_match.
Qed.

(** X4 — for a source whose path has no ".md" in it, [pandoc] is told to
    write over its own input, and a conversion that succeeds ends by
    removing the Markdown source itself. *)
Theorem X4_source_removed_when_no_md (env : environment) (md pdf : string)
    (s s1 s2 : fs) (cp : CompletedProcess) (n : N) :
  ~ PyStr.occurs ".md" md ->
  subprocess_run env (cmd_html md md) s = (inr cp, s1) ->
  returncode cp = 0%Z ->
  import_HTML env s1 = None ->
  write_pdf env md pdf s1 = (None, s2) ->
  s2 !! md = Some n ->
  result (markdown_to_pdf env md pdf s) = Val true
  /\ In (ERun (cmd_html md md)) (trace (markdown_to_pdf env md pdf s))
  /\ In (ERemove md) (trace (markdown_to_pdf env md pdf s))
  /\ files (markdown_to_pdf env md pdf s) !! md = None.
Proof.
  intros Hn Hr Hc Hi Hw Hs.
  assert (Hh : html_file_of md = md).
  { unfold html_file_of, PyStr.replace. apply replace_scan_no_match. exact Hn. }
  rewrite <- Hh in Hr at 2. rewrite <- Hh in Hw at 1. rewrite <- Hh in Hs.
  rewrite (markdown_to_pdf_success env md pdf s s1 s2 cp n Hr Hc Hi Hw Hs).
  cbn [result files trace]. unfold html_done_trace, step1_trace.
  rewrite !Hh. repeat split.
  - cbn [app In]. tauto.
  - rewrite in_app_iff. right. cbn [In]. tauto.
  - apply lookup_delete_eq.
Qed.

Lemma X4_source_removed_when_no_md_witness :
  files (markdown_to_pdf Envs.ideal "README" "README.pdf" {["README" := 10%N]})
    !! "README" = None.
Proof.
  refine (proj2 (proj2 (proj2
    (X4_source_removed_when_no_md Envs.ideal "README" "README.pdf"
       {["README" := 10%N]} (<["README" := 532%N]> {["README" := 10%N]})
       (<["README.pdf" := 4628%N]> (<["README" := 532%N]> {["README" := 10%N]}))
       {| returncode := 0; stdout := ""; stderr := "" |} 532%N
       _ _ _ _ _ _)))).
  - intros Ho. apply occursb_spec in Ho. discriminate Ho.
  - reflexivity.
  - reflexivity.
  - reflexivity.
  - reflexivity.
  - reflexivity.
Defined.

(** ** Files that the whole run leaves alone *)

(** X5 — when the collaborators write only the file they are asked for,
    the run changes no file other than the HTML and PDF paths of its jobs:
    a path that no job has as its HTML or PDF path is, at the end of
    [main], what it was at the start, whether the run returns or not. *)
Theorem X5_run_leaves_other_files (env : environment) (docs : list job) (s : fs)
    (p : string) :
  writes_only_outputs env ->
  untouched_by p docs ->
  files (main_on env docs s) !! p = s !! p.
Proof.
  intros Hlocal Hu.
  destruct (os_chdir env working_directory) as [e|] eqn:Hd.
  - rewrite (main_on_no_directory env docs s e Hd). reflexivity.
  - rewrite (main_on_run env docs s Hd). cbn zeta.
    pose proof (convert_all_frame env Hlocal docs 0 0 s p Hu) as Hf.
    destruct (result (convert_all env docs 0 0 s)) as [[sc fc]|e];
      cbn [files]; exact Hf.
Qed.

Lemma X5_run_leaves_other_files_witness :
  files (main Envs.ideal Envs.all_sources) !! "REFERENCE_MANUAL.md"
    = Some 40000%N.
Proof.
  refine (X5_run_leaves_other_files Envs.ideal documents Envs.all_sources
            "REFERENCE_MANUAL.md" ideal_writes_only_outputs _).
  repeat constructor; cbn [fst snd]; intros H; vm_compute in H; discriminate H.
Defined.

(** ** A directory without the sources *)

(** X6 — on a platform where no [print] and no query about a path
    raises, when the directory can be entered and none of the sources is
    in it, the run launches nothing and changes no file: it prints one
    warning per job, reports 0 successes and as many failures as there are
    jobs, and the listing shows the PDF files that were already there. *)
Theorem X6_no_source_present (amb : platform) (env : environment)
    (docs : list job) (s : fs) :
  calm amb ->
  os_chdir env working_directory = None ->
  Forall (fun j : job => s !! fst j = None) docs ->
  IO.main_on amb env docs s =
    Run (Val tt) s
      (header
         ++ concat (map (fun j : job => missing_chunk (fst j)) docs)
         ++ footer 0 (length docs)
         ++ listing docs s).
Proof.
  intros Hcalm Hd Hall. rewrite (main_on_run_io amb env Hcalm docs s Hd).
  cbn zeta. rewrite (convert_all_all_missing_io amb env Hcalm docs 0 0 s Hall).
  cbn [result files trace]. reflexivity.
Qed.

Lemma X6_no_source_present_witness :
  printed (trace (main_on Envs.ideal [("a.md", "a.pdf")]
                    {["a.pdf" := 1152921504607240191%N]}))
    = ["============================================================";
       "IOC_Config Documentation - PDF Generation";
       "============================================================";
       "";
       "⚠ File not found: a.md"; "";
       "============================================================";
       "Summary: 0 successful, 1 failed";
       "============================================================";
       newline +:+ "Generated PDF files:";
       "  ✓ a.pdf (1099511627776.38 MB)"].
Proof.
  rewrite (X6_no_source_present reliable Envs.ideal [("a.md", "a.pdf")]
             {["a.pdf" := 1152921504607240191%N]}).
  - vm_compute. reflexivity.
  - exact reliable_calm.
  - reflexivity.
  - repeat constructor.
Defined.

(** ** The size shown in the listing *)

(** X7 — the size that a line of the listing shows is the size in bytes
    divided by 1024 * 1024 in double precision and written with two
    decimals, ties to even: [size_mb] gives that text and no other.  A
    file of 5242 bytes is shown as 0.00 and one of 5243 bytes as 0.01; one
    of 131072 bytes, an eighth of a unit, as 0.12; one of 2^60 + 393215
    bytes, which is not a double, as 1099511627776.38. *)
Theorem X7_size_mb_rounding (size : N) (text : string) :
  (shows_mb size text <-> text = size_mb size)
  /\ size_mb 5242 = "0.00"
  /\ size_mb 5243 = "0.01"
  /\ size_mb 131072 = "0.12"
  /\ size_mb 2097152 = "2.00"
  /\ size_mb (2 ^ 60 + 393215) = "1099511627776.38".
Proof.
  split.
  - split.
    + intros H. exact (shows_mb_unique size _ _ H (size_mb_shows size)).
    + intros ->. apply size_mb_shows.
  - repeat split; vm_compute; reflexivity.
Qed.

(** ** The listing *)

(** X9 — on any platform, whether the listing returns or is ended by an
    exception, it changes no file and asks for the size of a file only
    after the file was found; a listing that returns has printed one line
    per job, in the order of the list; and where no [print] and no query
    about a path raises, the listing returns. *)
Theorem X9_listing_is_safe (amb : platform) (docs : list job) (s : fs) :
  files (IO.list_pdfs amb docs s) = s
  /\ (forall p : string,
        In (EStat p) (trace (IO.list_pdfs amb docs s)) -> is_Some (s !! p))
  /\ (result (IO.list_pdfs amb docs s) = Val tt ->
      printed (trace (IO.list_pdfs amb docs s))
        = map (fun j : job => listing_line s (snd j)) docs)
  /\ (calm amb -> result (IO.list_pdfs amb docs s) = Val tt).
Proof.
  split; [|split; [|split]].
  - induction docs as [|[md pdf] rest IH]; [reflexivity|].
    cbn [IO.list_pdfs]. rewrite bind_run. unfold IO.path_exists.
    destruct (stat_error amb pdf s) eqn:Hq; cbn [result files trace];
      [reflexivity|].
    destruct (bool_decide (is_Some (s !! pdf))).
    + rewrite bind_run. unfold IO.stat_size. rewrite Hq.
      destruct (s !! pdf); cbn [result files trace]; [|reflexivity].
      rewrite bind_run. unfold IO.print.
      destruct (stdout_write amb _ s); cbn [result files trace];
        [reflexivity|exact IH].
    + rewrite bind_run. unfold IO.print.
      destruct (stdout_write amb _ s); cbn [result files trace];
        [reflexivity|exact IH].
  - intros p. induction docs as [|[md pdf] rest IH]; [intros []|].
    cbn [IO.list_pdfs]. rewrite bind_run. unfold IO.path_exists.
    destruct (stat_error amb pdf s) eqn:Hq; cbn [result files trace].
    { cbn [In]. intros [H|[]]. discriminate H. }
    destruct (s !! pdf) as [n|] eqn:Hp.
    + rewrite bool_decide_eq_true_2 by eauto.
      rewrite bind_run. unfold IO.stat_size. rewrite Hq, Hp.
      cbn [result files trace].
      rewrite bind_run. unfold IO.print.
      destruct (stdout_write amb _ s); cbn [result files trace app In].
      * intros [H|[H|[H|[]]]]; try discriminate H.
        injection H as <-. rewrite Hp. eauto.
      * intros [H|[H|[H|H]]]; try discriminate H.
        -- injection H as <-. rewrite Hp. eauto.
        -- apply IH. exact H.
    + rewrite bool_decide_eq_false_2 by (intros [? ?]; discriminate).
      rewrite bind_run. unfold IO.print.
      destruct (stdout_write amb _ s); cbn [result files trace app In].
      * intros [H|[H|[]]]; discriminate H.
      * intros [H|[H|H]]; try discriminate H. apply IH. exact H.
  - intros Hv. rewrite (list_pdfs_val_inv amb docs s Hv). cbn [trace].
    apply printed_listing.
  - intros Hcalm. rewrite (list_pdfs_run_io amb Hcalm docs s). reflexivity.
Qed.

Lemma X9_listing_is_safe_witness :
  result (list_pdfs [("a.md", "a.pdf"); ("b.md", "b.pdf")]
            {["b.pdf" := 655360%N]}) = Val tt
  /\ printed (trace (list_pdfs [("a.md", "a.pdf"); ("b.md", "b.pdf")]
                       {["b.pdf" := 655360%N]}))
       = ["  ✗ a.pdf (NOT FOUND)"; "  ✓ b.pdf (0.62 MB)"].
Proof.
  pose proof (X9_listing_is_safe reliable [("a.md", "a.pdf"); ("b.md", "b.pdf")]
                {["b.pdf" := 655360%N]}) as (_ & _ & Hlines & Hret).
  split; [exact (Hret reliable_calm)|].
  rewrite (Hlines (Hret reliable_calm)). vm_compute. reflexivity.
Defined.

(** ** A message that cannot be printed *)

(** X11 — the message that tells that the HTML file was generated is
    printed outside the [try] statement: when standard output refuses it
    (the check mark has no encoding in an ASCII or a legacy code page),
    the exception leaves [markdown_to_pdf] after [pandoc] has run and
    before the rendering step; the file system is the one [pandoc] left,
    with the HTML file and without a PDF of this run. *)
Theorem X11_html_message_refused (amb : platform) (env : environment)
    (md pdf : string) (s s1 : fs) (cp : CompletedProcess) (e : exn) :
  stdout_write amb ("Converting " +:+ md +:+ " to PDF...") s = None ->
  stdout_write amb "  Step 1: Generating HTML from Markdown..." s = None ->
  subprocess_run env (cmd_html md (html_file_of md)) s = (inr cp, s1) ->
  returncode cp = 0%Z ->
  stdout_write amb ("  ✓ HTML generated: " +:+ html_file_of md) s1 = Some e ->
  IO.markdown_to_pdf amb env md pdf s =
    Run (Raise e) s1
      (step1_trace md
         ++ [EPrintError ("  ✓ HTML generated: " +:+ html_file_of md)]).
Proof.
  intros H1 H2 Hr Hc H3. unfold IO.markdown_to_pdf, step1_trace. cbn [app].
  bind_with ltac:(unfold IO.print; rewrite H1; reflexivity).
  cbv zeta.
  bind_with ltac:(unfold IO.print; rewrite H2; reflexivity).
  bind_with ltac:(unfold IO.subprocess_run_; rewrite Hr; reflexivity).
  rewrite Hc. cbn [Z.eqb negb].
  apply bind_raise. unfold IO.print. rewrite H3. reflexivity.
Qed.

Lemma X11_html_message_refused_witness :
  result (IO.main_on Worlds.ascii_stdout Envs.ideal [("a.md", "a.pdf")]
            {["a.md" := 10%N]})
    = Raise (Exn OtherException
               "'ascii' codec can't encode character: ordinal not in range(128)")
  /\ files (IO.markdown_to_pdf Worlds.ascii_stdout Envs.ideal "a.md" "a.pdf"
              {["a.md" := 10%N]})
       = <["a.html" := 532%N]> {["a.md" := 10%N]}.
Proof.
  split; [vm_compute; reflexivity|].
  rewrite (X11_html_message_refused Worlds.ascii_stdout Envs.ideal "a.md" "a.pdf"
             {["a.md" := 10%N]} (<["a.html" := 532%N]> {["a.md" := 10%N]})
             {| returncode := 0; stdout := ""; stderr := "" |}
             (Exn OtherException
                "'ascii' codec can't encode character: ordinal not in range(128)"));
    reflexivity.
Defined.
